(** * productstitch-pdf-service: the render gateway, verified

    A shallow embedding of the three [server.js] builds of the repository

      - [src/server.js]        ("Playwright PDF microservice (debug build)"),
      - [src/unnamed/part_000] (the first, single-route build),
      - [src/unnamed/part_001] ("diagnostic + robust" build),

    and the properties that the specification states about them.

    The browser engine (Playwright/Chromium) is an external collaborator: it
    is modelled as an arbitrary oracle that answers every call the code
    makes with either a resolved value or a rejection.  The code itself is
    written in a small state-and-exception monad whose state is the
    chronological log of engine calls and response operations. *)

From Stdlib Require Import ZArith NArith Ascii String List Bool Lia.
From stdpp Require Import gmap strings list fin_maps pretty.

Set Warnings "-register-all".
Local Open Scope Z_scope.
Local Open Scope string_scope.

(* ===================================================================== *)
(** ** 1. JavaScript values as the handlers see them                      *)
(* ===================================================================== *)

(** A JSON number, by the two things the handlers can learn of it:
    whether it is zero (what [ToBoolean] asks) and the text that
    [String] gives it (Number::toString, so that 1e21 is held with the
    text 1e+21 and one half with the text 0.5).  The value itself only
    travels on to the engine. *)
Record Number : Type := {
  num_zero : bool;
  num_text : string
}.

(** A parsed JSON value.  A string is held as its UTF-8 text (one byte
    per [ascii]); [utf16_units] below gives the code units JavaScript
    sees.  Objects are finite maps from property names to values. *)
Inductive Json : Type :=
| JNull
| JBool (b : bool)
| JNumber (x : Number)
| JStr (s : string)
| JArr (items : list Json)
| JObj (fields : gmap string Json).

(** An integer literal of at most 15 digits, which a double holds
    exactly and prints digit by digit. *)
Definition number_of_int (n : Z) : Number :=
  {| num_zero := Z.eqb n 0; num_text := pretty n |}.

Definition JNum (n : Z) : Json := JNumber (number_of_int n).

(** A JavaScript value that may be [undefined] ([None]). *)
Abbreviation JsVal := (option Json).
Abbreviation undefined := (@None Json).

(** The double-quote character, as a one-character string. *)
Definition DQ : string := String "034"%char EmptyString.

(** [ToBoolean]: what [!v] and [if (v)] look at. *)
Definition truthy (v : JsVal) : bool :=
  match v with
  | None => false
  | Some JNull => false
  | Some (JBool b) => b
  | Some (JNumber x) => negb (num_zero x)
  | Some (JStr s) => negb (String.eqb s "")
  | Some (JArr _) => true
  | Some (JObj _) => true
  end.

(** [typeof v]. *)
Definition typeof (v : JsVal) : string :=
  match v with
  | None => "undefined"
  | Some JNull => "object"
  | Some (JBool _) => "boolean"
  | Some (JNumber _) => "number"
  | Some (JStr _) => "string"
  | Some (JArr _) => "object"
  | Some (JObj _) => "object"
  end.

(** [a || b]. *)
Definition js_or (a b : JsVal) : JsVal := if truthy a then a else b.

(** [a ?? b]. *)
Definition js_coalesce (a b : JsVal) : JsVal :=
  match a with
  | None | Some JNull => b
  | _ => a
  end.

(** A destructuring or parameter default, [x = d]: applies only to
    [undefined], never to [null]. *)
Definition dflt (d : Json) (v : JsVal) : JsVal :=
  match v with
  | None => Some d
  | Some _ => v
  end.

(** Property read [v.k] for the property names the handlers use (none of
    them is a built-in property of strings, arrays or numbers). *)
Definition get_prop (v : JsVal) (k : string) : JsVal :=
  match v with
  | Some (JObj fields) => fields !! k
  | _ => None
  end.

(** [String(v)], which is also what a template literal applies; [None]
    when the conversion throws a TypeError.  An array is joined with
    commas, [null] elements giving the empty text.  A plain object goes
    through its [toString]: the inherited one gives [[object Object]],
    but an own property of that name, which a JSON value can only fill
    with something that cannot be called, leaves no way to a primitive
    (the inherited [valueOf] returns the object itself) and the
    conversion throws. *)
Fixpoint json_to_string (j : Json) : option string :=
  match j with
  | JNull => Some "null"
  | JBool true => Some "true"
  | JBool false => Some "false"
  | JNumber x => Some (num_text x)
  | JStr s => Some s
  | JArr items =>
      (fix join (l : list Json) : option string :=
         match l with
         | [] => Some ""
         | x :: rest =>
             match (match x with JNull => Some "" | _ => json_to_string x end) with
             | None => None
             | Some sx =>
                 match rest with
                 | [] => Some sx
                 | _ :: _ =>
                     match join rest with
                     | None => None
                     | Some sr => Some (sx +:+ "," +:+ sr)
                     end
                 end
             end
         end) items
  | JObj fields =>
      match fields !! "toString" with
      | Some _ => None
      | None => Some "[object Object]"
      end
  end.

Definition to_string (v : JsVal) : option string :=
  match v with
  | None => Some "undefined"
  | Some j => json_to_string j
  end.

(** The UTF-16 code units of a text held in UTF-8: what [length], string
    indices and Node's header check go by.  Two, three and four byte
    sequences are decoded (a lone surrogate written on three bytes is
    taken as it is), a code point above U+FFFF gives a surrogate pair,
    and a byte that starts no sequence gives U+FFFD. *)
Definition is_continuation (b : N) : bool := N.leb 128 b && N.ltb b 192.

Definition low6 (b : N) : N := N.land b 63.

Definition units_of_code_point (cp : N) : list N :=
  if N.ltb cp 65536 then [cp]
  else [(55296 + N.shiftr (cp - 65536) 10)%N; (56320 + N.land (cp - 65536) 1023)%N].

Fixpoint utf16_of_bytes (bs : list N) : list N :=
  match bs with
  | [] => []
  | b0 :: r0 =>
      if N.ltb b0 128 then b0 :: utf16_of_bytes r0
      else if N.leb 194 b0 && N.ltb b0 224 then
        match r0 with
        | b1 :: r1 =>
            if is_continuation b1
            then N.lor (N.shiftl (N.land b0 31) 6) (low6 b1) :: utf16_of_bytes r1
            else 65533%N :: utf16_of_bytes r0
        | [] => [65533%N]
        end
      else if N.leb 224 b0 && N.ltb b0 240 then
        match r0 with
        | b1 :: b2 :: r2 =>
            if is_continuation b1 && is_continuation b2
            then N.lor (N.shiftl (N.land b0 15) 12)
                       (N.lor (N.shiftl (low6 b1) 6) (low6 b2)) :: utf16_of_bytes r2
            else 65533%N :: utf16_of_bytes r0
        | _ => 65533%N :: utf16_of_bytes r0
        end
      else if N.leb 240 b0 && N.ltb b0 245 then
        match r0 with
        | b1 :: b2 :: b3 :: r3 =>
            if is_continuation b1 && is_continuation b2 && is_continuation b3
            then (units_of_code_point
                   (N.lor (N.shiftl (N.land b0 7) 18)
                          (N.lor (N.shiftl (low6 b1) 12)
                                 (N.lor (N.shiftl (low6 b2) 6) (low6 b3))))
                   ++ utf16_of_bytes r3)%list
            else 65533%N :: utf16_of_bytes r0
        | _ => 65533%N :: utf16_of_bytes r0
        end
      else 65533%N :: utf16_of_bytes r0
  end.

Definition utf16_units (s : string) : list N :=
  utf16_of_bytes (List.map N_of_ascii (list_ascii_of_string s)).

(** One code unit as a text of its own. *)
Definition byte_string (bs : list N) : string :=
  string_of_list_ascii (List.map ascii_of_N bs).

Definition text_of_unit (u : N) : string :=
  if N.ltb u 128 then byte_string [u]
  else if N.ltb u 2048 then
    byte_string [(192 + N.shiftr u 6)%N; (128 + low6 u)%N]
  else
    byte_string [(224 + N.shiftr u 12)%N; (128 + low6 (N.shiftr u 6))%N; (128 + low6 u)%N].

(** The text of a string value. *)
Definition string_value (v : JsVal) : string :=
  match v with
  | Some (JStr s) => s
  | _ => ""
  end.

(** [v.length] for a string (in code units) or an array. *)
Definition js_length (v : JsVal) : JsVal :=
  match v with
  | Some (JStr s) => Some (JNum (Z.of_nat (List.length (utf16_units s))))
  | Some (JArr l) => Some (JNum (Z.of_nat (List.length l)))
  | _ => None
  end.

(** The own enumerable properties that an object spread [...v] copies:
    the fields of an object, the indices of an array or of a string, and
    nothing for any other value. *)
Definition indexed (l : list Json) : gmap string Json :=
  list_to_map (imap (fun (i : nat) (x : Json) => (pretty i, x)) l).

Definition chars_of (s : string) : list Json :=
  List.map (fun u => JStr (text_of_unit u)) (utf16_units s).

Definition spread_entries (v : JsVal) : gmap string Json :=
  match v with
  | Some (JObj fields) => fields
  | Some (JArr items) => indexed items
  | Some (JStr s) => indexed (chars_of s)
  | _ => ∅
  end.

(** [{ ...base, ...v }]: later properties win. *)
Definition object_spread (base : gmap string Json) (v : JsVal) : gmap string Json :=
  spread_entries v ∪ base.

(** A primitive value. *)
Inductive Prim : Type :=
| PUndefined
| PNull
| PBool (b : bool)
| PNumber (x : Number)
| PStr (s : string).

Definition prim_to_string (p : Prim) : string :=
  match p with
  | PUndefined => "undefined"
  | PNull => "null"
  | PBool true => "true"
  | PBool false => "false"
  | PNumber x => num_text x
  | PStr s => s
  end.

(** Values a [catch] clause can receive: an [Error] object with its
    message (what Playwright, Node and the language itself throw), or a
    thrown primitive. *)
Inductive Thrown : Type :=
| ErrorObj (message : string)
| ThrownVal (v : Prim).

(** [String(err?.message ?? err)]: the message of an [Error]; a
    primitive has no [message], so it is converted itself. *)
Definition details_of (err : Thrown) : string :=
  match err with
  | ErrorObj message => message
  | ThrownVal v => prim_to_string v
  end.

(** The TypeError of a conversion to a primitive that found none. *)
Definition TYPE_ERROR : Thrown :=
  ErrorObj "Cannot convert object to primitive value".

(** A Node [Buffer]. *)
Abbreviation Buffer := (list Byte.byte).

(** [Buffer.toString("base64")]. *)
Definition b64_alphabet : string :=
  "ABCDEFGHIJKLMNOPQRSTUVWXYZabcdefghijklmnopqrstuvwxyz0123456789+/".

Definition b64_char (n : N) : string :=
  match String.get (N.to_nat (N.land n 63)) b64_alphabet with
  | Some c => String c EmptyString
  | None => ""
  end.

Fixpoint base64 (l : Buffer) : string :=
  match l with
  | [] => ""
  | [a] =>
      let n := N.shiftl (Byte.to_N a) 16 in
      b64_char (N.shiftr n 18) +:+ b64_char (N.shiftr n 12) +:+ "=="
  | [a; b] =>
      let n := N.lor (N.shiftl (Byte.to_N a) 16) (N.shiftl (Byte.to_N b) 8) in
      b64_char (N.shiftr n 18) +:+ b64_char (N.shiftr n 12)
        +:+ b64_char (N.shiftr n 6) +:+ "="
  | a :: b :: c :: rest =>
      let n := N.lor (N.lor (N.shiftl (Byte.to_N a) 16) (N.shiftl (Byte.to_N b) 8))
                     (Byte.to_N c) in
      b64_char (N.shiftr n 18) +:+ b64_char (N.shiftr n 12)
        +:+ b64_char (N.shiftr n 6) +:+ b64_char n +:+ base64 rest
  end.

(* ===================================================================== *)
(** ** 2. The browser engine and the HTTP response                        *)
(* ===================================================================== *)

(** The options object handed to [page.pdf]. *)
Record PdfOptions : Type := {
  opt_format : JsVal;
  opt_printBackground : bool;
  opt_preferCSSPageSize : bool;
  opt_margin : gmap string Json;
  opt_displayHeaderFooter : bool
}.

(** Every call the code makes on Playwright, with its arguments. *)
Inductive Call : Type :=
| Launch (args : list string)                 (* chromium.launch({ args }) *)
| NewPage (baseURL : JsVal)                   (* browser.newPage({ baseURL }) *)
| EmulateMedia (media : string)               (* page.emulateMedia({ media }) *)
| AddStyleTag (content : string)              (* page.addStyleTag({ content }) *)
| SetContent (html : JsVal) (waitUntil : string) (timeout : Z)
| EvaluateHandle (expr : string)              (* page.evaluateHandle(expr) *)
| PagePdf (opts : PdfOptions)                 (* page.pdf(opts) *)
| Screenshot (fullPage : bool) (type : string)
| BrowserClose.                               (* browser.close() *)

(** What an awaited engine call does: the promise resolves (with a buffer,
    empty where the code ignores the value) or rejects.  A promise that
    never settles is left out: the handler would then never go past that
    [await], so it has no exit path and no log to read; everything below
    is about the runs of a handler that come to an end. *)
Inductive Outcome : Type :=
| Resolves (buf : Buffer)
| Rejects (err : Thrown).

(** The engine is opaque: any function from the calls made so far in this
    request and the present call to an outcome. *)
Definition Engine : Type := list Call -> Call -> Outcome.

(** Operations on the Express response object. *)
Inductive ResOp : Type :=
| SetHeader (name value : string)             (* res.setHeader(name, value) *)
| Status (code : Z)                           (* res.status(code) *)
| Send (body : Buffer)                        (* .send(buffer) *)
| SendText (text : string)                    (* .send(string) *)
| SendJson (obj : gmap string Json)           (* .json(obj) *)
| ErrorPage.                                  (* Express's final handler *)

Inductive Event : Type :=
| Browser (c : Call) (o : Outcome)
| Http (op : ResOp).

(** The engine calls of a log, and its response operations. *)
Fixpoint calls_of (tr : list Event) : list Call :=
  match tr with
  | [] => []
  | Browser c _ :: rest => c :: calls_of rest
  | Http _ :: rest => calls_of rest
  end.

Fixpoint ops_of (tr : list Event) : list ResOp :=
  match tr with
  | [] => []
  | Browser _ _ :: rest => ops_of rest
  | Http op :: rest => op :: ops_of rest
  end.

(** The local [let browser;] of a handler: unassigned, or the browser
    object that [launch] resolved with. *)
Inductive BrowserObj : Type := TheBrowser.

Record St : Type := {
  trace : list Event;
  browser : option BrowserObj
}.

Definition st0 : St := {| trace := []; browser := None |}.

Inductive Result (A : Type) : Type :=
| Normal (a : A)
| Abrupt (err : Thrown).
Arguments Normal {A} a.
Arguments Abrupt {A} err.

(** Computations of the handlers: read the engine, extend the log, and
    complete normally or by throwing. *)
Definition M (A : Type) : Type := Engine -> St -> St * Result A.

Definition ret {A : Type} (a : A) : M A := fun _ st => (st, Normal a).

Definition throw {A : Type} (err : Thrown) : M A := fun _ st => (st, Abrupt err).

Definition bind {A B : Type} (m : M A) (k : A -> M B) : M B :=
  fun e st =>
    match m e st with
    | (st1, Normal a) => k a e st1
    | (st1, Abrupt err) => (st1, Abrupt err)
    end.

Declare Scope js_scope.
Delimit Scope js_scope with js.
Notation "x <- m ;; k" := (bind m (fun x => k))
  (at level 100, m at next level, right associativity) : js_scope.
Notation "m ;; k" := (bind m (fun _ => k))
  (at level 100, right associativity) : js_scope.
Local Open Scope js_scope.

(** [try { body } catch (err) { handler }]. *)
Definition try_catch {A : Type} (body : M A) (handler : Thrown -> M A) : M A :=
  fun e st =>
    match body e st with
    | (st1, Normal a) => (st1, Normal a)
    | (st1, Abrupt err) => handler err e st1
    end.

(** [try { body } finally { fin }]: [fin] always runs; if it throws, its
    exception replaces the completion of [body]. *)
Definition try_finally {A : Type} (body : M A) (fin : M unit) : M A :=
  fun e st =>
    match body e st with
    | (st1, r) =>
        match fin e st1 with
        | (st2, Normal _) => (st2, r)
        | (st2, Abrupt err) => (st2, Abrupt err)
        end
    end.

(** [try { await m; } catch (_) {}]. *)
Definition try_ignore {A : Type} (m : M A) : M unit :=
  try_catch (m ;; ret tt) (fun _ => ret tt).

(** [await] of one engine call: the oracle is asked, the call and its
    outcome are logged, a rejection is thrown. *)
Definition await (c : Call) : M Buffer :=
  fun e st =>
    let o := e (calls_of (trace st)) c in
    ({| trace := trace st ++ [Browser c o]; browser := browser st |},
     match o with
     | Resolves buf => Normal buf
     | Rejects err => Abrupt err
     end).

Definition let_browser : M unit :=
  fun _ st => ({| trace := trace st; browser := None |}, Normal tt).

Definition set_browser (b : BrowserObj) : M unit :=
  fun _ st => ({| trace := trace st; browser := Some b |}, Normal tt).

Definition get_browser : M (option BrowserObj) :=
  fun _ st => (st, Normal (browser st)).

Definition res_op (op : ResOp) : M unit :=
  fun _ st => ({| trace := trace st ++ [Http op]; browser := browser st |}, Normal tt).

(** Node's [http.ServerResponse.setHeader] validates the value: a
    code unit other than TAB, 0x20..0x7e and 0x80..0xff makes it throw
    [TypeError: Invalid character in header content ["<name>"]]
    (ERR_INVALID_CHAR) and the header is not set.  Control characters
    and every character above U+00FF are refused. *)
Definition header_char_ok (u : N) : bool :=
  (N.eqb u 9 || (N.leb 32 u && N.leb u 126) || (N.leb 128 u && N.leb u 255))%bool.

Definition header_value_ok (s : string) : bool :=
  forallb header_char_ok (utf16_units s).

Definition invalid_header_char (name : string) : Thrown :=
  ErrorObj ("Invalid character in header content [" +:+ DQ +:+ name +:+ DQ +:+ "]").

Definition res_setHeader (name value : string) : M unit :=
  if header_value_ok value
  then res_op (SetHeader name value)
  else throw (invalid_header_char name).

Definition res_status (code : Z) : M unit := res_op (Status code).
Definition res_send (body : Buffer) : M unit := res_op (Send body).
Definition res_send_text (text : string) : M unit := res_op (SendText text).
Definition res_json (obj : gmap string Json) : M unit := res_op (SendJson obj).

(** One interpolation [${v}] of a template literal: the text [String]
    gives, or the TypeError it throws. *)
Definition js_string (v : JsVal) : M string :=
  match to_string v with
  | Some s => ret s
  | None => throw TYPE_ERROR
  end.

(** [Buffer.byteLength(v, "utf8")]: the length in bytes of a string;
    any other value of the request makes Node throw
    ERR_INVALID_ARG_TYPE. *)
Definition byteLength (v : JsVal) : M nat :=
  match v with
  | Some (JStr s) => ret (String.length s)
  | _ =>
      throw (ErrorObj ("The " +:+ DQ +:+ "string" +:+ DQ +:+
                       " argument must be of type string or an instance of Buffer or ArrayBuffer."))
  end.

(** [console.log] and [console.error] write to the process's standard
    streams only; they touch neither the engine nor the response.  The
    line they are given is a template literal that the handler evaluates
    first, with [js_string] for each interpolated value. *)
Definition console_log (line : string) : M unit := ret tt.
Definition console_error (line : string) (err : Thrown) : M unit := ret tt.

(** The response a client receives, read off the log. *)
Inductive Body : Type :=
| NoBody
| Bytes (b : Buffer)
| Text (s : string)
| JsonBody (obj : gmap string Json)
| FinalHandlerPage.

Record Response : Type := {
  status : Z;
  headers : gmap string string;
  sent_body : Body
}.

(** The status a body goes out with: the one [res.status] set, or
    Express's default 200 when none was set. *)
Definition sent_status (r : Response) : Z :=
  if Z.eqb (status r) 0 then 200 else status r.

Definition apply_op (r : Response) (op : ResOp) : Response :=
  match op with
  | SetHeader name value =>
      {| status := status r; headers := <[name := value]> (headers r); sent_body := sent_body r |}
  | Status code => {| status := code; headers := headers r; sent_body := sent_body r |}
  | Send b => {| status := sent_status r; headers := headers r; sent_body := Bytes b |}
  | SendText s => {| status := sent_status r; headers := headers r; sent_body := Text s |}
  | SendJson obj => {| status := sent_status r; headers := headers r; sent_body := JsonBody obj |}
  | ErrorPage => {| status := sent_status r; headers := headers r; sent_body := FinalHandlerPage |}
  end.

(** Read from a log; status 0 stands for a response on which no status
    was set and nothing was sent. *)
Definition response_of (tr : list Event) : Response :=
  fold_left apply_op (ops_of tr) {| status := 0; headers := ∅; sent_body := NoBody |}.

(** Running a handler from a fresh state gives its log. *)
Definition run {A : Type} (m : M A) (e : Engine) : list Event := trace (fst (m e st0)).

Definition completion {A : Type} (m : M A) (e : Engine) : Result A := snd (m e st0).

(* ===================================================================== *)
(** ** 3. Express: requests, the JSON body parser, shared pieces          *)
(* ===================================================================== *)

(** The request methods the application tells apart; [OtherMethod] is
    any method no route is registered for, other than OPTIONS. *)
Inductive Method : Type := GET | HEAD | POST | OPTIONS | OtherMethod.

(** What the JSON body parser makes of the headers of a request: no
    body of a JSON media type, a JSON body in a charset or a content
    encoding the parser does not support, or a JSON body it can read. *)
Inductive Media : Type := NotJson | JsonUnsupported | JsonSupported.

(** An incoming request, by what the application can observe of it: the
    method, the path name of the URL, the media of its body, the length
    in bytes of that body once decoded, and what [JSON.parse] makes of
    it ([None]: a syntax error). *)
Record Request : Type := {
  method : Method;
  path : string;
  media : Media;
  body_length : N;
  payload : option Json
}.

(** The request carries a JSON body that the parser reads. *)
Definition json_typed (req : Request) : bool :=
  match media req with
  | JsonSupported => true
  | _ => false
  end.

(** [express.json({ limit: "20mb" })]: the limit is read in binary units. *)
Definition json_limit : N := 20 * 1024 * 1024.

Inductive BodyParse : Type :=
| NotParsed                     (* no JSON body: the parser calls next() *)
| ParsedBody (v : Json)         (* req.body = v, then next() *)
| ParserError (code : Z).       (* next(err): routes are skipped *)

(** Express's JSON body parser (strict mode, the default): an
    unsupported charset or content encoding is refused with 415; then a
    body longer than the limit is refused with 413, before it is parsed;
    an empty body gives [{}], and only objects and arrays are accepted,
    anything else being a 400. *)
Definition express_json (limit : N) (req : Request) : BodyParse :=
  match media req with
  | NotJson => NotParsed
  | JsonUnsupported => ParserError 415
  | JsonSupported =>
      if N.ltb limit (body_length req) then ParserError 413
      else if N.eqb (body_length req) 0 then ParsedBody (JObj ∅)
      else match payload req with
           | Some (JObj fields) => ParsedBody (JObj fields)
           | Some (JArr items) => ParsedBody (JArr items)
           | _ => ParserError 400
           end
  end.

(** [req.body] as the route handlers find it. *)
Definition req_body (p : BodyParse) : JsVal :=
  match p with
  | ParsedBody v => Some v
  | _ => undefined
  end.

(** Express's final handler answers what no route answered. *)
Definition final_handler (code : Z) : M unit :=
  res_status code ;; res_op ErrorPage.

(** A route table: what [app.get] and [app.post] registered. *)
Definition Routes : Type := Method -> string -> option (JsVal -> M unit).

(** Express matches the path of a route without regard to the case of
    ASCII letters and with or without one trailing slash. *)
Definition lower_ascii (c : ascii) : ascii :=
  let n := N_of_ascii c in
  if N.leb 65 n && N.leb n 90 then ascii_of_N (n + 32) else c.

Fixpoint lower (s : string) : string :=
  match s with
  | EmptyString => EmptyString
  | String c rest => String (lower_ascii c) (lower rest)
  end.

Definition path_is (route p : string) : bool :=
  String.eqb (lower p) route || String.eqb (lower p) (route +:+ "/").

(** The methods Express lists for a path, in the order the routes are
    registered: a route of [app.get] counts for GET and HEAD. *)
Definition allowed_methods (routes : Routes) (p : string) : list string :=
  ((match routes GET p with
    | Some _ => ["GET"; "HEAD"]
    | None => []
    end) ++
   (match routes POST p with
    | Some _ => ["POST"]
    | None => []
    end))%list.

Fixpoint join_comma (l : list string) : string :=
  match l with
  | [] => ""
  | [x] => x
  | x :: rest => x +:+ "," +:+ join_comma rest
  end.

(** The answer of Express's router to an OPTIONS request on the path of
    a route: the methods of the path, as the Allow header and as the
    body. *)
Definition options_response (allow : list string) : M unit :=
  res_setHeader "Allow" (join_comma allow) ;;
  res_send_text (join_comma allow).

(** The application: [app.use(express.json({ limit: "20mb" }))] runs
    first; a parser error skips every route; otherwise the matching route
    handler runs on [req.body].  A route registered with [app.get] also
    takes the HEAD requests, and an OPTIONS request on the path of a
    route is answered by the router itself.  What Express does about a
    handler whose promise rejects is not part of the log: the log holds
    what the handler itself did. *)
Definition express (routes : Routes) (req : Request) : M unit :=
  match express_json json_limit req with
  | ParserError code => final_handler code
  | parsed =>
      match routes (method req) (path req) with
      | Some handler => handler (req_body parsed)
      | None =>
          match method req, allowed_methods routes (path req) with
          | OPTIONS, m :: ms => options_response (m :: ms)
          | _, _ => final_handler 404
          end
      end
  end.

(** An object literal as [res.json] serialises it: properties whose value
    is [undefined] are left out. *)
Fixpoint json_object (props : list (string * JsVal)) : gmap string Json :=
  match props with
  | [] => ∅
  | (k, Some v) :: rest => <[k := v]> (json_object rest)
  | (_, None) :: rest => json_object rest
  end.

(** The argument object of [renderPdfFromHtml]. *)
Record RenderArgs : Type := {
  html : JsVal;
  baseURL : JsVal;
  format : JsVal;
  margin : JsVal;
  filename : JsVal;
  forceSystemFonts : JsVal
}.

(** The margin literal that every build spreads the request's margin over. *)
Definition default_margin : gmap string Json :=
  <["top" := JStr "12mm"]> (<["right" := JStr "12mm"]>
  (<["bottom" := JStr "16mm"]> (<["left" := JStr "12mm"]> ∅))).

Definition FONTS_READY : string := "document.fonts && document.fonts.ready".

Definition MISSING_HTML : gmap string Json :=
  json_object [("error", Some (JStr "Missing or invalid 'html' field"))].

(** [GET /healthz], the same in the three builds. *)
Definition get_healthz : M unit :=
  res_status 200 ;; res_send_text "ok".

(** [if (browser) await browser.close();] *)
Definition close_if_launched : M unit :=
  b <- get_browser ;;
  match b with
  | Some _ => await BrowserClose ;; ret tt
  | None => ret tt
  end.

(* ===================================================================== *)
(** ** 4. src/server.js (debug build)                                     *)
(* ===================================================================== *)

Module ServerJs.

Definition launch_args : list string := ["--no-sandbox"; "--disable-dev-shm-usage"].

Definition launchBrowser : M BrowserObj :=
  await (Launch launch_args) ;; ret TheBrowser.

Definition renderPdfFromHtml (a : RenderArgs) : M Buffer :=
  let format := dflt (JStr "Letter") (format a) in
  let margin := dflt (JObj ∅) (margin a) in
  let filename := dflt (JStr "document.pdf") (filename a) in   (* never read *)
  let_browser ;;
  try_finally
    (br <- launchBrowser ;; set_browser br ;;
     await (NewPage (js_or (baseURL a) undefined)) ;;
     await (EmulateMedia "screen") ;;
     await (SetContent (html a) "networkidle" 30000) ;;
     try_ignore (await (EvaluateHandle FONTS_READY)) ;;
     pdf <- await (PagePdf {| opt_format := format;
                              opt_printBackground := true;
                              opt_preferCSSPageSize := true;
                              opt_margin := object_spread default_margin margin;
                              opt_displayHeaderFooter := false |}) ;;
     ret pdf)
    close_if_launched.

Definition post_pdf (body : JsVal) : M unit :=
  let b := js_or body (Some (JObj ∅)) in
  let html := get_prop b "html" in
  let baseURL := dflt JNull (get_prop b "baseURL") in
  let format := dflt (JStr "Letter") (get_prop b "format") in
  let margin := dflt (JObj ∅) (get_prop b "margin") in
  let filename := dflt (JStr "document.pdf") (get_prop b "filename") in
  if negb (truthy html) || negb (String.eqb (typeof html) "string") then
    res_status 400 ;; res_json MISSING_HTML
  else
    bytes <- byteLength html ;;
    format_text <- js_string format ;;
    console_log ("[PDF] in html bytes=" +:+ pretty bytes +:+ ", format=" +:+ format_text) ;;
    try_catch
      (pdf <- renderPdfFromHtml {| html := html; baseURL := baseURL; format := format;
                                   margin := margin; filename := filename;
                                   forceSystemFonts := undefined |} ;;
       console_log ("[PDF] out bytes=" +:+ pretty (List.length pdf)) ;;
       res_setHeader "Content-Type" "application/pdf" ;;
       name <- js_string filename ;;
       res_setHeader "Content-Disposition" ("inline; filename=" +:+ DQ +:+ name +:+ DQ) ;;
       res_status 200 ;; res_send pdf)
      (fun err =>
         console_error "PDF rendering failed:" err ;;
         res_status 500 ;;
         res_json (json_object [("error", Some (JStr "PDF rendering failed"));
                                ("details", Some (JStr (details_of err)))])).

Definition SELFTEST_HTML : string :=
  "<!doctype html><html><head><meta charset=" +:+ DQ +:+ "utf-8" +:+ DQ +:+ ">
  <style>body{font:16px/1.4 Arial,sans-serif} h1{color:#3a47ff}</style></head>
  <body><h1>Selftest OK</h1><p>This PDF proves Chromium can render text.</p></body></html>".

Definition get_selftest : M unit :=
  let html := Some (JStr SELFTEST_HTML) in
  try_catch
    (pdf <- renderPdfFromHtml {| html := html; baseURL := undefined; format := undefined;
                                 margin := undefined; filename := Some (JStr "selftest.pdf");
                                 forceSystemFonts := undefined |} ;;
     res_setHeader "Content-Type" "application/pdf" ;;
     res_setHeader "Content-Disposition" ("inline; filename=" +:+ DQ +:+ "selftest.pdf" +:+ DQ) ;;
     res_status 200 ;; res_send pdf)
    (fun e =>
       res_status 500 ;;
       res_json (json_object [("error", Some (JStr "Selftest failed"));
                              ("details", Some (JStr (details_of e)))])).

Definition post_pdf_debug (body : JsVal) : M unit :=
  let b := js_or body (Some (JObj ∅)) in
  let html := get_prop b "html" in
  let baseURL := dflt JNull (get_prop b "baseURL") in
  if negb (truthy html) || negb (String.eqb (typeof html) "string") then
    res_status 400 ;; res_json MISSING_HTML
  else
    let_browser ;;
    try_finally
      (try_catch
         (br <- launchBrowser ;; set_browser br ;;
          await (NewPage (js_or baseURL undefined)) ;;
          await (EmulateMedia "screen") ;;
          await (SetContent html "networkidle" 30000) ;;
          try_ignore (await (EvaluateHandle FONTS_READY)) ;;
          png <- await (Screenshot true "png") ;;
          let b64 := base64 png in
          res_status 200 ;;
          res_json (json_object [("screenshot_base64", Some (JStr b64));
                                 ("html_len", js_length html)]))
         (fun e =>
            res_status 500 ;;
            res_json (json_object [("error", Some (JStr "pdf-debug failed"));
                                   ("details", Some (JStr (details_of e)))])))
      close_if_launched.

Definition routes : Routes := fun m p =>
  match m with
  | GET | HEAD =>
      if path_is "/healthz" p then Some (fun _ => get_healthz)
      else if path_is "/selftest" p then Some (fun _ => get_selftest)
      else None
  | POST =>
      if path_is "/pdf" p then Some post_pdf
      else if path_is "/pdf-debug" p then Some post_pdf_debug
      else None
  | OPTIONS | OtherMethod => None
  end.

End ServerJs.

(* ===================================================================== *)
(** ** 5. src/unnamed/part_000 (first build: one route, inline render)    *)
(* ===================================================================== *)

Module Part000.

Definition launch_args : list string := ["--no-sandbox"].

Definition post_pdf (body : JsVal) : M unit :=
  let b := js_or body (Some (JObj ∅)) in
  let html := get_prop b "html" in
  let baseURL := dflt JNull (get_prop b "baseURL") in
  let format := dflt (JStr "Letter") (get_prop b "format") in
  let margin := dflt (JObj ∅) (get_prop b "margin") in
  let filename := dflt (JStr "document.pdf") (get_prop b "filename") in
  if negb (truthy html) || negb (String.eqb (typeof html) "string") then
    res_status 400 ;; res_json MISSING_HTML
  else
    let_browser ;;
    try_finally
      (try_catch
         (await (Launch launch_args) ;; set_browser TheBrowser ;;
          await (NewPage (js_or baseURL undefined)) ;;
          await (SetContent html "networkidle" 30000) ;;
          try_ignore (await (EvaluateHandle FONTS_READY)) ;;
          pdf <- await (PagePdf {| opt_format := format;
                                   opt_printBackground := true;
                                   opt_preferCSSPageSize := true;
                                   opt_margin := object_spread default_margin margin;
                                   opt_displayHeaderFooter := false |}) ;;
          res_setHeader "Content-Type" "application/pdf" ;;
          name <- js_string filename ;;
          res_setHeader "Content-Disposition" ("inline; filename=" +:+ DQ +:+ name +:+ DQ) ;;
          res_status 200 ;; res_send pdf)
         (fun err =>
            console_error "PDF rendering failed:" err ;;
            res_status 500 ;;
            res_json (json_object [("error", Some (JStr "PDF rendering failed"));
                                   ("details", Some (JStr (details_of err)))])))
      close_if_launched.

Definition routes : Routes := fun m p =>
  match m with
  | GET | HEAD => if path_is "/healthz" p then Some (fun _ => get_healthz) else None
  | POST => if path_is "/pdf" p then Some post_pdf else None
  | OPTIONS | OtherMethod => None
  end.

End Part000.

(* ===================================================================== *)
(** ** 6. src/unnamed/part_001 (diagnostic + robust build)                *)
(* ===================================================================== *)

Module Part001.

Definition launch_args : list string :=
  ["--no-sandbox"; "--disable-dev-shm-usage"; "--disable-gpu"; "--font-render-hinting=none"].

Definition launchBrowser : M BrowserObj :=
  await (Launch launch_args) ;; ret TheBrowser.

(** [attachDebug(page)] registers four listeners on the page object that
    only write to the console; no engine call, no response operation. *)
Definition attachDebug : M unit := ret tt.

Definition VISIBILITY_CSS : string := "
  html,body{background:#fff !important;}
  *{-webkit-text-fill-color: initial !important; color:#0b1220 !important;}
".

Definition SYSTEM_FONT_CSS : string := "
  body, h1, h2, h3, h4, p, li, blockquote { font-family: Arial, sans-serif !important; }
".

Definition renderPdfFromHtml (a : RenderArgs) : M Buffer :=
  let format := dflt (JStr "Letter") (format a) in
  let margin := dflt (JObj ∅) (margin a) in
  let filename := dflt (JStr "document.pdf") (filename a) in   (* never read *)
  let forceSystemFonts := dflt (JBool false) (forceSystemFonts a) in
  let_browser ;;
  try_finally
    (br <- launchBrowser ;; set_browser br ;;
     await (NewPage (js_or (baseURL a) undefined)) ;;
     attachDebug ;;
     await (EmulateMedia "screen") ;;
     await (AddStyleTag VISIBILITY_CSS) ;;
     (if truthy forceSystemFonts
      then await (AddStyleTag SYSTEM_FONT_CSS) ;; ret tt
      else ret tt) ;;
     await (SetContent (html a) "networkidle" 30000) ;;
     try_ignore (await (EvaluateHandle FONTS_READY)) ;;
     pdf <- await (PagePdf {| opt_format := format;
                              opt_printBackground := true;
                              opt_preferCSSPageSize := true;
                              opt_margin := object_spread default_margin margin;
                              opt_displayHeaderFooter := false |}) ;;
     ret pdf)
    close_if_launched.

Definition post_pdf (body : JsVal) : M unit :=
  let b := js_or body (Some (JObj ∅)) in
  let html := get_prop b "html" in
  let baseURL := dflt JNull (get_prop b "baseURL") in
  let format := dflt (JStr "Letter") (get_prop b "format") in
  let margin := dflt (JObj ∅) (get_prop b "margin") in
  let filename := dflt (JStr "document.pdf") (get_prop b "filename") in
  let forceSystemFonts := dflt (JBool false) (get_prop b "forceSystemFonts") in
  if negb (truthy html) || negb (String.eqb (typeof html) "string") then
    res_status 400 ;; res_json MISSING_HTML
  else
    bytes <- byteLength html ;;
    format_text <- js_string format ;;
    console_log ("[PDF] in html bytes=" +:+ pretty bytes +:+ " format=" +:+ format_text
                 +:+ " forceSystemFonts="
                 +:+ (if truthy forceSystemFonts then "true" else "false")) ;;
    try_catch
      (pdf <- renderPdfFromHtml {| html := html; baseURL := baseURL; format := format;
                                   margin := margin; filename := filename;
                                   forceSystemFonts := forceSystemFonts |} ;;
       console_log ("[PDF] out bytes=" +:+ pretty (List.length pdf)) ;;
       res_setHeader "Content-Type" "application/pdf" ;;
       name <- js_string filename ;;
       res_setHeader "Content-Disposition" ("inline; filename=" +:+ DQ +:+ name +:+ DQ) ;;
       res_status 200 ;; res_send pdf)
      (fun err =>
         console_error "PDF rendering failed:" err ;;
         res_status 500 ;;
         res_json (json_object [("error", Some (JStr "PDF rendering failed"));
                                ("details", Some (JStr (details_of err)))])).

Definition SELFTEST_HTML : string :=
  "<!doctype html><html><head><meta charset=" +:+ DQ +:+ "utf-8" +:+ DQ +:+ "><style>
  body{font:16px/1.4 Arial,sans-serif} h1{color:#3a47ff}
  </style></head><body>
  <h1>Selftest OK</h1><p>This PDF proves Chromium can render text.</p></body></html>".

Definition get_selftest : M unit :=
  let html := Some (JStr SELFTEST_HTML) in
  try_catch
    (pdf <- renderPdfFromHtml {| html := html; baseURL := undefined; format := undefined;
                                 margin := undefined; filename := Some (JStr "selftest.pdf");
                                 forceSystemFonts := Some (JBool true) |} ;;
     res_setHeader "Content-Type" "application/pdf" ;;
     res_setHeader "Content-Disposition" ("inline; filename=" +:+ DQ +:+ "selftest.pdf" +:+ DQ) ;;
     res_status 200 ;; res_send pdf)
    (fun e =>
       res_status 500 ;;
       res_json (json_object [("error", Some (JStr "Selftest failed"));
                              ("details", Some (JStr (details_of e)))])).

Definition post_pdf_debug (body : JsVal) : M unit :=
  let b := js_or body (Some (JObj ∅)) in
  let html := get_prop b "html" in
  let baseURL := dflt JNull (get_prop b "baseURL") in
  let forceSystemFonts := dflt (JBool false) (get_prop b "forceSystemFonts") in
  if negb (truthy html) || negb (String.eqb (typeof html) "string") then
    res_status 400 ;; res_json MISSING_HTML
  else
    let_browser ;;
    try_finally
      (try_catch
         (br <- launchBrowser ;; set_browser br ;;
          await (NewPage (js_or baseURL undefined)) ;;
          attachDebug ;;
          await (EmulateMedia "screen") ;;
          await (AddStyleTag VISIBILITY_CSS) ;;
          (if truthy forceSystemFonts
           then await (AddStyleTag SYSTEM_FONT_CSS) ;; ret tt
           else ret tt) ;;
          await (SetContent html "networkidle" 30000) ;;
          try_ignore (await (EvaluateHandle FONTS_READY)) ;;
          png <- await (Screenshot true "png") ;;
          let b64 := base64 png in
          res_status 200 ;;
          res_json (json_object [("screenshot_base64", Some (JStr b64));
                                 ("html_len", js_length html)]))
         (fun e =>
            res_status 500 ;;
            res_json (json_object [("error", Some (JStr "pdf-debug failed"));
                                   ("details", Some (JStr (details_of e)))])))
      close_if_launched.

Definition routes : Routes := fun m p =>
  match m with
  | GET | HEAD =>
      if path_is "/healthz" p then Some (fun _ => get_healthz)
      else if path_is "/selftest" p then Some (fun _ => get_selftest)
      else None
  | POST =>
      if path_is "/pdf" p then Some post_pdf
      else if path_is "/pdf-debug" p then Some post_pdf_debug
      else None
  | OPTIONS | OtherMethod => None
  end.

End Part001.

(* ===================================================================== *)
(** ** 7. The three builds side by side                                   *)
(* ===================================================================== *)

Inductive Build : Type := server_js | part_000 | part_001.

Definition routes (b : Build) : Routes :=
  match b with
  | server_js => ServerJs.routes
  | part_000 => Part000.routes
  | part_001 => Part001.routes
  end.

Definition app (b : Build) (req : Request) : M unit := express (routes b) req.

(** The [POST /pdf] handler of each build. *)
Definition post_pdf (b : Build) : JsVal -> M unit :=
  match b with
  | server_js => ServerJs.post_pdf
  | part_000 => Part000.post_pdf
  | part_001 => Part001.post_pdf
  end.

(** The flags each build launches Chromium with. *)
Definition launch_args (b : Build) : list string :=
  match b with
  | server_js => ServerJs.launch_args
  | part_000 => Part000.launch_args
  | part_001 => Part001.launch_args
  end.

(* ===================================================================== *)
(** ** 8. Reading a log                                                   *)
(* ===================================================================== *)

(** The value the template literal of the Content-Disposition header
    produces for a file name. *)
Definition CONTENT_DISPOSITION (name : string) : string :=
  "inline; filename=" +:+ DQ +:+ name +:+ DQ.

(** The error payload of [POST /pdf]. *)
Definition RENDER_FAILED (details : string) : gmap string Json :=
  json_object [("error", Some (JStr "PDF rendering failed"));
               ("details", Some (JStr details))].

(** Sessions still open after a log, starting from [n] open ones: a
    resolved launch opens one, [browser.close()] releases one. *)
Fixpoint live_sessions (tr : list Event) (n : nat) : nat :=
  match tr with
  | [] => n
  | Browser (Launch _) (Resolves _) :: rest => live_sessions rest (S n)
  | Browser BrowserClose _ :: rest => live_sessions rest (Nat.pred n)
  | _ :: rest => live_sessions rest n
  end.

Definition is_session_start (ev : Event) : bool :=
  match ev with
  | Browser (Launch _) (Resolves _) => true
  | _ => false
  end.

Definition session_started (tr : list Event) : bool := existsb is_session_start tr.

(** The session discipline of one request. *)
Definition session_released (tr : list Event) : Prop :=
  live_sessions tr 0 = 0%nat /\
  (session_started tr = true -> last (calls_of tr) = Some BrowserClose) /\
  (session_started tr = false -> ~ In BrowserClose (calls_of tr)).

(** Style overrides injected ahead of the content load, in order;
    [None] when the content is never loaded. *)
Fixpoint injected_before_content (cs : list Call) : option (list string) :=
  match cs with
  | [] => None
  | SetContent _ _ _ :: _ => Some []
  | AddStyleTag css :: rest => option_map (cons css) (injected_before_content rest)
  | _ :: rest => injected_before_content rest
  end.

(** Every style override injected during the request. *)
Fixpoint injected (cs : list Call) : list string :=
  match cs with
  | [] => []
  | AddStyleTag css :: rest => css :: injected rest
  | _ :: rest => injected rest
  end.

(** [haystack.includes(needle)]. *)
Definition includes (needle haystack : string) : bool :=
  match String.index 0 needle haystack with
  | Some _ => true
  | None => false
  end.

(** The options of every [page.pdf] call of a log. *)
Fixpoint pdf_options (cs : list Call) : list PdfOptions :=
  match cs with
  | [] => []
  | PagePdf opts :: rest => opts :: pdf_options rest
  | _ :: rest => pdf_options rest
  end.

(** The flag lists of every launch of a log. *)
Fixpoint launches (cs : list Call) : list (list string) :=
  match cs with
  | [] => []
  | Launch args :: rest => args :: launches rest
  | _ :: rest => launches rest
  end.

(** The wait condition and timeout of every content load of a log. *)
Fixpoint content_loads (cs : list Call) : list (string * Z) :=
  match cs with
  | [] => []
  | SetContent _ waitUntil timeout :: rest => (waitUntil, timeout) :: content_loads rest
  | _ :: rest => content_loads rest
  end.

Definition is_font_wait (c : Call) : bool :=
  match c with
  | EvaluateHandle _ => true
  | _ => false
  end.

Definition is_capture (c : Call) : bool :=
  match c with
  | PagePdf _ | Screenshot _ _ => true
  | _ => false
  end.

Definition content_load_rejected (ev : Event) : bool :=
  match ev with
  | Browser (SetContent _ _ _) (Rejects _) => true
  | _ => false
  end.

(** A rejected step of the pipeline proper: any engine call except the
    best-effort font wait and the final [browser.close()]. *)
Definition step_rejected (ev : Event) : bool :=
  match ev with
  | Browser BrowserClose _ => false
  | Browser (EvaluateHandle _) _ => false
  | Browser _ (Rejects _) => true
  | _ => false
  end.

(** The error the [catch] clause of a handler receives: the last
    rejection, other than that of the font wait, among the engine calls
    made before the response is written. *)
Fixpoint reported_failure (tr : list Event) (acc : option Thrown) : option Thrown :=
  match tr with
  | [] => acc
  | Http _ :: _ => acc
  | Browser (EvaluateHandle _) _ :: rest => reported_failure rest acc
  | Browser _ (Rejects err) :: rest => reported_failure rest (Some err)
  | Browser _ (Resolves _) :: rest => reported_failure rest acc
  end.

(** The bodies written to the response, in order. *)
Fixpoint bodies_sent (ops : list ResOp) : list Body :=
  match ops with
  | [] => []
  | Send b :: rest => Bytes b :: bodies_sent rest
  | SendText s :: rest => Text s :: bodies_sent rest
  | SendJson obj :: rest => JsonBody obj :: bodies_sent rest
  | ErrorPage :: rest => FinalHandlerPage :: bodies_sent rest
  | _ :: rest => bodies_sent rest
  end.

(** The engine-side part of a log. *)
Fixpoint engine_events (tr : list Event) : list (Call * Outcome) :=
  match tr with
  | [] => []
  | Browser c o :: rest => (c, o) :: engine_events rest
  | Http _ :: rest => engine_events rest
  end.

(** An engine that answers the font wait with [o] and is [e] otherwise. *)
Definition with_font_wait (o : Outcome) (e : Engine) : Engine :=
  fun h c =>
    match c with
    | EvaluateHandle _ => o
    | _ => e h c
    end.

(** Two request bodies that agree on every property but [filename]. *)
Definition same_but_filename (body1 body2 : JsVal) : Prop :=
  forall k : string, k <> "filename" -> get_prop body1 k = get_prop body2 k.

(** The file name [POST /pdf] interpolates for a body; [None] when the
    interpolation throws. *)
Definition filename_of (body : JsVal) : option string :=
  to_string (dflt (JStr "document.pdf") (get_prop body "filename")).

(** The Content-Disposition value a body leads to, and whether it can be
    set: the interpolation does not throw and Node takes the value. *)
Definition disposition_of (body : JsVal) : option string :=
  option_map CONTENT_DISPOSITION (filename_of body).

Definition disposition_ok (body : JsVal) : bool :=
  match disposition_of body with
  | Some value => header_value_ok value
  | None => false
  end.

(** A text that holds the character [c]. *)
Definition holds_char (c : ascii) (s : string) : Prop :=
  In c (list_ascii_of_string s).

(** The text the log line of [POST /pdf] interpolates for [format]. *)
Definition format_text (body : JsVal) : option string :=
  to_string (dflt (JStr "Letter") (get_prop body "format")).

(** Whether [POST /pdf] throws ahead of its [try]: in [src/server.js]
    and [part_001] the first log line interpolates [format] before the
    [try] is entered; [part_000] has no such line. *)
Definition early_throw (b : Build) (body : JsVal) : bool :=
  match b with
  | part_000 => false
  | _ => match format_text body with
         | Some _ => false
         | None => true
         end
  end.

(** The first rejected step of a log. *)
Fixpoint first_failure (tr : list Event) : option Thrown :=
  match tr with
  | [] => None
  | Browser BrowserClose _ :: rest => first_failure rest
  | Browser (EvaluateHandle _) _ :: rest => first_failure rest
  | Browser _ (Rejects err) :: rest => Some err
  | _ :: rest => first_failure rest
  end.

(** Whether [browser.close()] was rejected before anything was written
    to the response. *)
Fixpoint close_rejected_first (tr : list Event) : bool :=
  match tr with
  | [] => false
  | Http _ :: _ => false
  | Browser BrowserClose (Rejects _) :: _ => true
  | _ :: rest => close_rejected_first rest
  end.

(** The four margin edges. *)
Definition edges : list string := ["top"; "right"; "bottom"; "left"].

(** Every launch of a log used exactly the flags [flags]. *)
Definition launched_with (flags : list string) (tr : list Event) : Prop :=
  forall args : list string, In args (launches (calls_of tr)) -> args = flags.

(** The style overrides the diagnostic build injects: the visibility
    guard, then the system-font rule when [fsf] holds. *)
Definition style_overrides (fsf : bool) : list string :=
  Part001.VISIBILITY_CSS :: (if fsf then [Part001.SYSTEM_FONT_CSS] else []).

(** When the content is loaded, exactly [expected] was injected ahead of
    it; and nothing outside [expected] is injected at any point. *)
Definition overrides_precede_content (expected : list string) (tr : list Event) : Prop :=
  (forall tags : list string,
      injected_before_content (calls_of tr) = Some tags -> tags = expected) /\
  (forall css : string, In css (injected (calls_of tr)) -> In css expected).

(** Every content load of a log waits for network idle, 30000 ms at most. *)
Definition content_wait_fixed (tr : list Event) : Prop :=
  forall (waitUntil : string) (timeout : Z),
    In (waitUntil, timeout) (content_loads (calls_of tr)) ->
    waitUntil = "networkidle" /\ timeout = 30000.

(** A rejected content load ends the render: no print or screenshot is
    attempted and the answer is a 500. *)
Definition content_load_fatal (tr : list Event) : Prop :=
  existsb content_load_rejected tr = true ->
  filter is_capture (calls_of tr) = [] /\ status (response_of tr) = 500.

(** What a client and the engine can tell two logs apart by. *)
Definition observably_equal (tr1 tr2 : list Event) : Prop :=
  response_of tr1 = response_of tr2 /\ calls_of tr1 = calls_of tr2.

(** The message of the failed step is the one reported, unless the
    close that follows in [renderPdfFromHtml] is rejected as well. *)
Definition underlying_failure_reported (tr : list Event) : Prop :=
  forall err : Thrown,
    first_failure tr = Some err ->
    close_rejected_first tr = false ->
    ops_of tr = [Status 500; SendJson (RENDER_FAILED (details_of err))].

(** A rejected pipeline step surfaces as the one rendering-failed payload. *)
Definition failure_reported (tr : list Event) : Prop :=
  existsb step_rejected tr = true ->
  exists (err : Thrown) (c : Call),
    reported_failure tr None = Some err /\
    ops_of tr = [Status 500; SendJson (RENDER_FAILED (details_of err))] /\
    In (Browser c (Rejects err)) tr /\ is_font_wait c = false.

(** All or nothing: the bytes the print step resolved with and a 200, or
    the error payload and a 500. *)
Definition pdf_or_error (tr : list Event) : Prop :=
  (exists (opts : PdfOptions) (pdf : Buffer),
      In (Browser (PagePdf opts) (Resolves pdf)) tr /\
      bodies_sent (ops_of tr) = [Bytes pdf] /\
      status (response_of tr) = 200) \/
  (exists details : string,
      bodies_sent (ops_of tr) = [JsonBody (RENDER_FAILED details)] /\
      status (response_of tr) = 500).

(** Two responses that can differ in their Content-Disposition header
    only. *)
Definition differ_in_disposition_only (tr1 tr2 : list Event) : Prop :=
  status (response_of tr1) = status (response_of tr2) /\
  headers (response_of tr1) !! "Content-Type" = headers (response_of tr2) !! "Content-Type" /\
  sent_body (response_of tr1) = sent_body (response_of tr2) /\
  (forall name : string,
      name <> "Content-Disposition" ->
      headers (response_of tr1) !! name = headers (response_of tr2) !! name).

(* ===================================================================== *)
(** ** 9. Sample inputs                                                   *)
(* ===================================================================== *)

Definition PDF_BYTES : Buffer := [Byte.x25; Byte.x50; Byte.x44; Byte.x46].

(** An engine on which every call resolves. *)
Definition ok_engine : Engine :=
  fun _ c =>
    match c with
    | PagePdf _ => Resolves PDF_BYTES
    | Screenshot _ _ => Resolves [Byte.x4d; Byte.x61; Byte.x6e]
    | _ => Resolves []
    end.

(** An engine whose content load times out. *)
Definition timeout_engine : Engine :=
  fun _ c =>
    match c with
    | SetContent _ _ _ => Rejects (ErrorObj "page.setContent: Timeout 30000ms exceeded.")
    | _ => Resolves []
    end.

Definition hello_body : JsVal :=
  Some (JObj {[ "html" := JStr "<p>x</p>" ]}).

Definition fonts_body : JsVal :=
  Some (JObj (<["html" := JStr "<p>x</p>"]> {[ "forceSystemFonts" := JBool true ]})).

Definition top_margin_body : JsVal :=
  Some (JObj (<["html" := JStr "<p>x</p>"]>
              {[ "margin" := JObj {[ "top" := JStr "5mm" ]} ]})).

Definition named_body (name : string) : JsVal :=
  Some (JObj (<["html" := JStr "<p>x</p>"]> {[ "filename" := JStr name ]})).

Definition LF : string := String "010"%char EmptyString.

Definition big_request : Request :=
  {| method := POST; path := "/pdf"; media := JsonSupported;
     body_length := 20971521; payload := Some (JObj {[ "html" := JStr "<p>x</p>" ]}) |}.

(* ===================================================================== *)
(** ** 9b. The rest of the files: startup, more readings of a log         *)
(* ===================================================================== *)

(** [const PORT = process.env.PORT || 3000;] where the environment holds
    a string or nothing. *)
Definition PORT (env_port : option string) : JsVal :=
  js_or (option_map JStr env_port) (Some (JNum 3000)).

(** The error payloads of [GET /selftest] and [POST /pdf-debug]. *)
Definition SELFTEST_FAILED (details : string) : gmap string Json :=
  json_object [("error", Some (JStr "Selftest failed"));
               ("details", Some (JStr details))].

Definition DEBUG_FAILED (details : string) : gmap string Json :=
  json_object [("error", Some (JStr "pdf-debug failed"));
               ("details", Some (JStr details))].

(** The payload of a successful [POST /pdf-debug]. *)
Definition DEBUG_OK (png : Buffer) (html : JsVal) : gmap string Json :=
  json_object [("screenshot_base64", Some (JStr (base64 png)));
               ("html_len", js_length html)].

(** An engine that answers [browser.close()] with [o] and is [e]
    otherwise. *)
Definition with_close_outcome (o : Outcome) (e : Engine) : Engine :=
  fun h c =>
    match c with
    | BrowserClose => o
    | _ => e h c
    end.

Definition close_rejected (ev : Event) : bool :=
  match ev with
  | Browser BrowserClose (Rejects _) => true
  | _ => false
  end.

(** Any rejection the handler does not swallow: every rejected engine
    call but the font wait. *)
Definition call_rejected (ev : Event) : bool :=
  match ev with
  | Browser (EvaluateHandle _) _ => false
  | Browser _ (Rejects _) => true
  | _ => false
  end.

Definition close_or_response (ev : Event) : bool :=
  match ev with
  | Browser BrowserClose _ => true
  | Browser _ _ => false
  | Http _ => true
  end.

(** After the first rejected step of a log, nothing but
    [browser.close()] is asked of the engine. *)
Fixpoint quiet_after_failure (tr : list Event) : bool :=
  match tr with
  | [] => true
  | ev :: rest =>
      if step_rejected ev then forallb close_or_response rest
      else quiet_after_failure rest
  end.

Definition fail_fast (tr : list Event) : Prop :=
  forall (pre post : list Event) (ev : Event),
    tr = (pre ++ ev :: post)%list ->
    step_rejected ev = true ->
    forall (c : Call) (o : Outcome), In (Browser c o) post -> c = BrowserClose.

(** The media of every [page.emulateMedia] call of a log. *)
Fixpoint emulated (cs : list Call) : list string :=
  match cs with
  | [] => []
  | EmulateMedia media :: rest => media :: emulated rest
  | _ :: rest => emulated rest
  end.

(** The media emulated ahead of the content load; [None] when the
    content is never loaded. *)
Fixpoint emulated_before_content (cs : list Call) : option (list string) :=
  match cs with
  | [] => None
  | SetContent _ _ _ :: _ => Some []
  | EmulateMedia media :: rest => option_map (cons media) (emulated_before_content rest)
  | _ :: rest => emulated_before_content rest
  end.

(** The [baseURL] of every page opened. *)
Fixpoint new_pages (cs : list Call) : list JsVal :=
  match cs with
  | [] => []
  | NewPage baseURL :: rest => baseURL :: new_pages rest
  | _ :: rest => new_pages rest
  end.

(** The document of every content load. *)
Fixpoint contents (cs : list Call) : list JsVal :=
  match cs with
  | [] => []
  | SetContent html _ _ :: rest => html :: contents rest
  | _ :: rest => contents rest
  end.

(** The options of every screenshot. *)
Fixpoint screenshots (cs : list Call) : list (bool * string) :=
  match cs with
  | [] => []
  | Screenshot fullPage type :: rest => (fullPage, type) :: screenshots rest
  | _ :: rest => screenshots rest
  end.

(** [html] is a non-empty string. *)
Definition valid_html (body : JsVal) : Prop :=
  exists s : string, get_prop body "html" = Some (JStr s) /\ s <> "".

(** What the guard of the POST routes decides. *)
Definition guard_decides (flags : list string) (early : bool) (body : JsVal)
    (tr : list Event) : Prop :=
  (status (response_of tr) = 400 <-> ~ valid_html body) /\
  (valid_html body -> early = false -> launches (calls_of tr) = [flags]) /\
  (valid_html body -> early = true -> tr = []) /\
  (~ valid_html body -> launches (calls_of tr) = []).

(** Whether the handler of a POST route throws ahead of its [try]. *)
Definition throws_before_try (b : Build) (p : string) (body : JsVal) : bool :=
  path_is "/pdf" p && early_throw b body.


(** The one run that answers nothing: [POST /pdf] of [src/server.js] or
    [part_001], past the guard, with a [format] that cannot be turned
    into text; the handler throws at its first log line. *)
Definition unanswered_early_throw (b : Build) (req : Request) (tr : list Event) : Prop :=
  tr = [] /\
  method req = POST /\ path_is "/pdf" (path req) = true /\
  valid_html (req_body (express_json json_limit req)) /\
  early_throw b (req_body (express_json json_limit req)) = true.

(** Screen media ahead of every content load. *)
Definition screen_before_content (tr : list Event) : Prop :=
  (forall ms : list string,
      emulated_before_content (calls_of tr) = Some ms -> ms = ["screen"]) /\
  (forall media : string, In media (emulated (calls_of tr)) -> media = "screen").

(** The fixed part of the print options and the page format. *)
Definition print_options_fixed (requested : JsVal) (tr : list Event) : Prop :=
  forall opts : PdfOptions,
    In opts (pdf_options (calls_of tr)) ->
    opt_printBackground opts = true /\
    opt_preferCSSPageSize opts = true /\
    opt_displayHeaderFooter opts = false /\
    opt_format opts = match requested with
                      | None => Some (JStr "Letter")
                      | Some v => Some v
                      end.

(** Every page is opened on [baseURL || undefined]. *)
Definition pages_opened_on (requested : JsVal) (tr : list Event) : Prop :=
  forall u : JsVal,
    In u (new_pages (calls_of tr)) ->
    u = if truthy requested then requested else undefined.

(** Every content load is given the request's [html], a non-empty
    string, as it came. *)
Definition html_loaded_verbatim (body : JsVal) (tr : list Event) : Prop :=
  forall v : JsVal,
    In v (contents (calls_of tr)) ->
    v = get_prop body "html" /\ valid_html body.

(** A 200 of [POST /pdf]. *)
Definition pdf_success_shape (name : string) (tr : list Event) : Prop :=
  status (response_of tr) = 200 ->
  headers (response_of tr) !! "Content-Type" = Some "application/pdf" /\
  headers (response_of tr) !! "Content-Disposition" = Some (CONTENT_DISPOSITION name) /\
  exists (opts : PdfOptions) (pdf : Buffer),
    In (Browser (PagePdf opts) (Resolves pdf)) tr /\
    sent_body (response_of tr) = Bytes pdf.

(** A rejected [browser.close()] costs the response. *)
Definition close_failure_fatal (tr : list Event) : Prop :=
  existsb close_rejected tr = true ->
  status (response_of tr) = 500 /\
  forall b : Buffer, ~ In (Bytes b) (bodies_sent (ops_of tr)).

(** The answers of [POST /pdf-debug] to a valid body. *)
Definition debug_png_or_error (html : JsVal) (tr : list Event) : Prop :=
  (exists png : Buffer,
      In (Browser (Screenshot true "png") (Resolves png)) tr /\
      ops_of tr = [Status 200; SendJson (DEBUG_OK png html)]) \/
  (exists err : Thrown,
      reported_failure tr None = Some err /\
      ops_of tr = [Status 500; SendJson (DEBUG_FAILED (details_of err))]).

(** The answers of [GET /selftest]. *)
Definition selftest_pdf_or_error (tr : list Event) : Prop :=
  (exists (opts : PdfOptions) (pdf : Buffer),
      In (Browser (PagePdf opts) (Resolves pdf)) tr /\
      ops_of tr = [SetHeader "Content-Type" "application/pdf";
                   SetHeader "Content-Disposition" (CONTENT_DISPOSITION "selftest.pdf");
                   Status 200; Send pdf]) \/
  (exists err : Thrown,
      reported_failure tr None = Some err /\
      ops_of tr = [Status 500; SendJson (SELFTEST_FAILED (details_of err))]).

(** [GET /selftest] renders with every option at its default. *)
Definition selftest_defaults (tr : list Event) : Prop :=
  (forall opts : PdfOptions,
      In opts (pdf_options (calls_of tr)) ->
      opt_format opts = Some (JStr "Letter") /\ opt_margin opts = default_margin) /\
  (forall u : JsVal, In u (new_pages (calls_of tr)) -> u = undefined).

(** What [renderPdfFromHtml] returns or throws, against its log. *)
Definition render_contract (r : Result Buffer) (tr : list Event) : Prop :=
  ops_of tr = [] /\
  match r with
  | Normal pdf =>
      existsb call_rejected tr = false /\
      exists opts : PdfOptions, In (Browser (PagePdf opts) (Resolves pdf)) tr
  | Abrupt err =>
      exists c : Call, In (Browser c (Rejects err)) tr /\ is_font_wait c = false
  end.

(** The Content-Disposition header goes with status 200 and only with it. *)
Definition disposition_iff_success (tr : list Event) : Prop :=
  is_Some (headers (response_of tr) !! "Content-Disposition") <->
  status (response_of tr) = 200.

(** A margin that an object spread copies nothing from. *)
Definition spreads_nothing (v : JsVal) : bool :=
  match v with
  | None | Some JNull | Some (JBool _) | Some (JNumber _) => true
  | _ => false
  end.

(** More sample inputs. *)
Definition unprintable : Json := JObj {[ "toString" := JNum 1 ]}.

(** A body whose [format] has no text. *)
Definition odd_format_body : JsVal :=
  Some (JObj (<["html" := JStr "<p>x</p>"]> {[ "format" := unprintable ]})).

(** A body whose [filename] has no text. *)
Definition odd_name_body : JsVal :=
  Some (JObj (<["html" := JStr "<p>x</p>"]> {[ "filename" := unprintable ]})).

Definition CR : string := String "013"%char EmptyString.

(** An engine whose print step and [browser.close()] are both rejected. *)
Definition print_and_close_fail_engine : Engine :=
  fun _ c =>
    match c with
    | PagePdf _ => Rejects (ErrorObj "page.pdf: Unknown paper format")
    | BrowserClose => Rejects (ErrorObj "browser.close: Target closed")
    | _ => Resolves []
    end.

Definition head_selftest : Request :=
  {| method := HEAD; path := "/SelfTest/"; media := NotJson;
     body_length := 0; payload := None |}.

Definition odd_format_request : Request :=
  {| method := POST; path := "/pdf"; media := JsonSupported;
     body_length := 40;
     payload := Some (JObj (<["html" := JStr "<p>x</p>"]> {[ "format" := unprintable ]})) |}.

Definition options_pdf : Request :=
  {| method := OPTIONS; path := "/pdf"; media := NotJson;
     body_length := 0; payload := None |}.

Definition health_probe : Request :=
  {| method := GET; path := "/healthz"; media := NotJson;
     body_length := 0; payload := None |}.

Definition pdf_request : Request :=
  {| method := POST; path := "/pdf"; media := JsonSupported;
     body_length := 19; payload := Some (JObj {[ "html" := JStr "<p>x</p>" ]}) |}.

(** An engine whose [browser.close()] is rejected. *)
Definition close_fails_engine : Engine :=
  with_close_outcome (Rejects (ErrorObj "browser.close: Target closed")) ok_engine.

(** An engine whose print step is rejected. *)
Definition print_fails_engine : Engine :=
  fun _ c =>
    match c with
    | PagePdf _ => Rejects (ErrorObj "page.pdf: Unknown paper format")
    | _ => Resolves []
    end.

Arguments object_spread : simpl never.
Arguments json_object : simpl never.
Arguments RENDER_FAILED : simpl never.
Arguments CONTENT_DISPOSITION : simpl never.

(* ===================================================================== *)
(** ** 10. Symbolic execution of the handlers                             *)
(* ===================================================================== *)

(** Equations that bring what a handler reads from [req.body] to one
    form, and those that hold past the guard on [html]; filled in with
    the lemmas of the next section. *)
Create Rewrite HintDb js_norm.
Create Rewrite HintDb js_guard.

(** Unfold the handlers and the monad, and nothing of the values. *)
Ltac unfold_code :=
  cbv beta iota zeta delta
    [run completion fst snd trace browser st0
     bind ret throw try_catch try_finally try_ignore await
     let_browser set_browser get_browser js_string
     res_op res_setHeader res_status res_send res_send_text res_json
     console_log console_error final_handler options_response get_healthz
     close_if_launched
     ServerJs.launchBrowser ServerJs.renderPdfFromHtml ServerJs.post_pdf
     ServerJs.get_selftest ServerJs.post_pdf_debug
     Part000.post_pdf
     Part001.launchBrowser Part001.attachDebug Part001.renderPdfFromHtml
     Part001.post_pdf Part001.get_selftest Part001.post_pdf_debug
     post_pdf with_font_wait
     html baseURL format margin filename forceSystemFonts
     calls_of Datatypes.app].

(** Unfold the handlers alone, down to the calls they make. *)
Ltac unfold_handlers :=
  cbv beta iota zeta delta
    [ServerJs.launchBrowser ServerJs.renderPdfFromHtml ServerJs.post_pdf
     ServerJs.get_selftest ServerJs.post_pdf_debug
     Part000.post_pdf
     Part001.launchBrowser Part001.attachDebug Part001.renderPdfFromHtml
     Part001.post_pdf Part001.get_selftest Part001.post_pdf_debug
     post_pdf
     html baseURL format margin filename forceSystemFonts].

(** The header values that are literals of the source, and the method
    lists of the router, are legal. *)
Ltac known_headers :=
  try change (header_value_ok "application/pdf") with true;
  try change (header_value_ok ("inline; filename=" +:+ DQ +:+ "selftest.pdf" +:+ DQ)) with true;
  try change (header_value_ok (join_comma ["GET"; "HEAD"])) with true;
  try change (header_value_ok (join_comma ["POST"])) with true;
  try change (header_value_ok (join_comma ["GET"; "HEAD"; "POST"])) with true.

(** One step: split on an outcome, on the answer of the engine to the
    next call, on the next test the handler makes, or on whether an
    interpolated value has a text. *)
Ltac exec_step :=
  match goal with
  | o : Outcome |- _ => destruct o as [?buf | ?err]
  | |- context [match ?answer with Resolves _ => _ | Rejects _ => _ end] =>
      destruct answer as [?buf | ?err] eqn:?
  | |- context [byteLength _] => progress autorewrite with js_guard
  | |- context [if ?c then _ else _] => destruct c eqn:?
  | |- context [match to_string ?v with Some _ => _ | None => _ end] =>
      destruct (to_string v) as [?text |] eqn:?
  end; unfold_code.

(** Every run of the goal is given a name, so that it is executed once
    however often the goal mentions it; [read_runs] puts the logs back. *)
Ltac name_runs :=
  repeat match goal with
    | |- context [run ?m ?e] => let tr := fresh "tr" in remember (run m e) as tr
    end;
  repeat match goal with
    | H : ?tr = run _ _ |- _ => revert tr H
    end.

Ltac read_runs :=
  repeat match goal with
    | |- forall tr : list Event, tr = _ -> _ => intros ? ->
    end.

Ltac exec :=
  unfold_handlers; autorewrite with js_norm; name_runs;
  unfold_code; known_headers; cbv beta iota; repeat exec_step; read_runs.

(** Which handler a route resolves to. *)
Ltac pick_route Hr :=
  match type of Hr with
  | routes ?b ?m ?p = Some ?h =>
      destruct b, m; cbn [routes ServerJs.routes Part000.routes Part001.routes] in Hr;
      repeat match type of Hr with
        | (if ?c then _ else _) = _ => destruct c eqn:?
        end;
      inversion Hr; subst h; clear Hr
  end.

(** The same, against an engine whose [browser.close()] is forced. *)
Ltac exec_close := unfold with_close_outcome; exec.

(** Which handler a POST route, or a route of one build, resolves to. *)
Ltac pick_handler b Hr :=
  destruct b; cbn [routes ServerJs.routes Part000.routes Part001.routes] in Hr;
  repeat match type of Hr with
    | (if ?c then _ else _) = _ => destruct c eqn:?
    end;
  inversion Hr; subst; clear Hr.

(** Read the response off a log that is an explicit list. *)
Ltac read_response :=
  cbv [response_of ops_of fold_left apply_op status headers sent_body sent_status];
  repeat match goal with
    | |- context [Z.eqb ?a 0] =>
        let r := eval vm_compute in (Z.eqb a 0) in change (Z.eqb a 0) with r
    end;
  cbv beta iota.

(* ===================================================================== *)
(** ** 11. Properties                                                     *)
(* ===================================================================== *)

Example base64_Man : base64 [Byte.x4d; Byte.x61; Byte.x6e] = "TWFu".
Proof. reflexivity. Qed.

Example base64_Ma : base64 [Byte.x4d; Byte.x61] = "TWE=".
Proof. reflexivity. Qed.

Example to_string_array :
  to_string (Some (JArr [JNum 1; JNull; JArr [JStr "a"; JBool true]])) = Some "1,,a,true".
Proof. reflexivity. Qed.

Example to_string_own_toString : to_string (Some unprintable) = None.
Proof. reflexivity. Qed.

Example to_string_array_of_own_toString :
  to_string (Some (JArr [JNum 1; unprintable])) = None.
Proof. reflexivity. Qed.

Example line_feed_is_not_header_content : header_value_ok (CONTENT_DISPOSITION LF) = false.
Proof. reflexivity. Qed.

Example double_quote_is_header_content : header_value_ok (CONTENT_DISPOSITION DQ) = true.
Proof. reflexivity. Qed.

Example latin1_is_header_content : header_value_ok (CONTENT_DISPOSITION "é.pdf") = true.
Proof. reflexivity. Qed.

Example beyond_latin1_is_not_header_content :
  header_value_ok (CONTENT_DISPOSITION "文.pdf") = false.
Proof. reflexivity. Qed.

Example length_in_code_units :
  js_length (Some (JStr "aé文😀")) = Some (JNum 5).
Proof. reflexivity. Qed.

Example options_on_pdf :
  ops_of (run (app server_js options_pdf) ok_engine)
    = [SetHeader "Allow" "POST"; SendText "POST"] /\
  status (response_of (run (app server_js options_pdf) ok_engine)) = 200.
Proof. split; reflexivity. Qed.

Example path_without_case_or_slash :
  path_is "/pdf" "/PDF/" = true /\ path_is "/pdf" "/pdfx" = false.
Proof. split; reflexivity. Qed.

(** [req.body || {}] reads the same properties as [req.body]. *)
Lemma get_prop_or_empty (body : JsVal) (k : string) :
  get_prop (js_or body (Some (JObj ∅))) k = get_prop body k.
Proof.
  unfold js_or. destruct body as [[| | | | |]|]; cbn; try reflexivity.
  - destruct b; reflexivity.
  - destruct (negb _); reflexivity.
  - destruct (negb _); reflexivity.
Qed.

(** A default applied twice: the handler's, then the render function's. *)
Lemma dflt_dflt (d d' : Json) (v : JsVal) : dflt d (dflt d' v) = dflt d' v.
Proof. destruct v; reflexivity. Qed.

Lemma truthy_dflt_false (v : JsVal) : truthy (dflt (JBool false) v) = truthy v.
Proof. destruct v; reflexivity. Qed.

Lemma spread_dflt_empty (v : JsVal) :
  spread_entries (dflt (JObj ∅) v) = spread_entries v.
Proof. destruct v; reflexivity. Qed.

#[export] Hint Rewrite get_prop_or_empty dflt_dflt truthy_dflt_false : js_norm.

(** The guard [!html || typeof html !== "string"], in both directions. *)
Lemma guard_rejects (v : JsVal) :
  v = undefined \/ v = Some (JStr "") \/ typeof v <> "string" ->
  negb (truthy v) || negb (String.eqb (typeof v) "string") = true.
Proof.
  intros [-> | [-> | H]]; try reflexivity.
  destruct v as [[| | | | |]|]; try reflexivity;
    try (cbn; apply orb_true_r).
  exfalso. apply H. reflexivity.
Qed.

Lemma guard_valid (v : JsVal) (s : string) :
  v = Some (JStr s) -> s <> "" ->
  negb (truthy v) || negb (String.eqb (typeof v) "string") = false.
Proof.
  intros -> Hs. cbn. destruct (String.eqb_spec s ""); [contradiction | reflexivity].
Qed.

Lemma guard_accepts (v : JsVal) :
  negb (truthy v) || negb (String.eqb (typeof v) "string") = false ->
  exists s, v = Some (JStr s) /\ s <> "".
Proof.
  destruct v as [[| | | | |]|]; cbn; intros H;
    try discriminate; try (rewrite orb_true_r in H; discriminate).
  exists s. split; [reflexivity|]. intros ->. discriminate.
Qed.

(** Past the guard [html] is a string, and its byte length is defined. *)
Lemma byteLength_past_guard (v : JsVal) :
  negb (truthy v) || negb (String.eqb (typeof v) "string") = false ->
  byteLength v = ret (String.length (string_value v)).
Proof.
  intros H. destruct (guard_accepts v H) as (s & -> & _). reflexivity.
Qed.

(** An interpolated value that has a text. *)
Lemma js_string_text (v : JsVal) (text : string) :
  to_string v = Some text -> js_string v = ret text.
Proof. intros H. unfold js_string. rewrite H. reflexivity. Qed.

#[export] Hint Rewrite byteLength_past_guard using assumption : js_guard.

Lemma routes_post_pdf (b : Build) : routes b POST "/pdf" = Some (post_pdf b).
Proof. destruct b; reflexivity. Qed.

(** The object spread over the margin literal, edge by edge: a property
    of the request's margin wins, any other edge keeps its default. *)
Lemma margin_lookup (requested : JsVal) (edge : string) :
  object_spread default_margin requested !! edge =
  match spread_entries requested !! edge with
  | Some v => Some v
  | None => default_margin !! edge
  end.
Proof.
  unfold object_spread. rewrite lookup_union.
  destruct (spread_entries requested !! edge) as [v |] eqn:Hreq.
  - destruct (default_margin !! edge); reflexivity.
  - destruct (default_margin !! edge); reflexivity.
Qed.

(** The margin of every print call of [POST /pdf], in every build. *)
Lemma print_margin (b : Build) (e : Engine) (body : JsVal) (opts : PdfOptions) :
  In opts (pdf_options (calls_of (run (post_pdf b body) e))) ->
  opt_margin opts = object_spread default_margin (get_prop body "margin").
Proof.
  destruct b; exec.
  all: cbv [pdf_options calls_of]; cbn [In].
  all: first [intros [<- | []] | intros []]; cbn [opt_margin].
  all: unfold object_spread; rewrite spread_dflt_empty; reflexivity.
Qed.

(** Whatever the font wait does, the log reads as if it had resolved. *)
Lemma font_wait_invisible (b : Build) (m : Method) (p : string)
    (h : JsVal -> M unit) (e : Engine) (body : JsVal) (o : Outcome) :
  routes b m p = Some h ->
  observably_equal (run (h body) (with_font_wait o e))
                   (run (h body) (with_font_wait (Resolves []) e)).
Proof.
  intros Hr. pick_route Hr.
  all: exec.
  all: simplify_eq.
  all: split; reflexivity.
Qed.

Lemma render_failed_fields (details : string) :
  RENDER_FAILED details !! "error" = Some (JStr "PDF rendering failed") /\
  RENDER_FAILED details !! "details" = Some (JStr details).
Proof. split; reflexivity. Qed.

Lemma named_bodies_same_but_filename (name1 name2 : string) :
  same_but_filename (named_body name1) (named_body name2).
Proof.
  intros k Hk. unfold named_body. cbn [get_prop].
  destruct (decide (k = "html")) as [-> | Hhtml].
  - rewrite !lookup_insert_eq. reflexivity.
  - rewrite !lookup_insert_ne by congruence.
    rewrite !lookup_singleton_ne by congruence. reflexivity.
Qed.

(** The bytes of an appended text. *)
Lemma list_ascii_of_string_append (s t : string) :
  list_ascii_of_string (s +:+ t) = (list_ascii_of_string s ++ list_ascii_of_string t)%list.
Proof.
  induction s as [| c s IH]; [reflexivity |].
  cbn. rewrite <- IH. reflexivity.
Qed.

(** A header value that Node accepts holds no ASCII byte that Node
    refuses: the decoder hands every ASCII byte on as a code unit of its
    own, or answers an ill-formed sequence with U+FFFD, which is refused. *)
Lemma accepted_units_ascii (n : nat) :
  forall bs : list N,
    (length bs <= n)%nat ->
    forallb header_char_ok (utf16_of_bytes bs) = true ->
    forall b : N, In b bs -> (b < 128)%N -> header_char_ok b = true.
Proof.
  induction n as [| n IH]; intros bs Hlen Hok b Hin Hb.
  - destruct bs; [destruct Hin | cbn in Hlen; lia].
  - destruct bs as [| b0 r0]; [destruct Hin |].
    cbn [length] in Hlen.
    cbn [utf16_of_bytes] in Hok.
    destruct (N.ltb b0 128) eqn:H0.
    { cbn [forallb] in Hok. apply andb_true_iff in Hok as [Hb0 Hrest].
      destruct Hin as [<- | Hin]; [exact Hb0 |].
      apply (IH r0); [lia | exact Hrest | exact Hin | exact Hb]. }
    apply N.ltb_ge in H0.
    assert (Hhead : b0 = b -> False) by (intros ->; lia).
    assert (Hbad : forall l, forallb header_char_ok (65533%N :: l) = true -> False)
      by (intros l Hl; cbn in Hl; discriminate Hl).
    assert (Hcont : forall c, is_continuation c = true -> c = b -> False).
    { intros c Hc ->. unfold is_continuation in Hc.
      apply andb_true_iff in Hc as [Hc _]. apply N.leb_le in Hc. lia. }
    destruct (N.leb 194 b0 && N.ltb b0 224).
    { destruct r0 as [| b1 r1]; [exfalso; exact (Hbad _ Hok) |].
      destruct (is_continuation b1) eqn:H1; [| exfalso; exact (Hbad _ Hok)].
      cbn [forallb] in Hok. apply andb_true_iff in Hok as [_ Hrest].
      destruct Hin as [Hin | [Hin | Hin]];
        [exfalso; exact (Hhead Hin) | exfalso; exact (Hcont _ H1 Hin) |].
      cbn [length] in Hlen.
      apply (IH r1); [lia | exact Hrest | exact Hin | exact Hb]. }
    destruct (N.leb 224 b0 && N.ltb b0 240).
    { destruct r0 as [| b1 [| b2 r2]]; try (exfalso; exact (Hbad _ Hok)).
      destruct (is_continuation b1) eqn:H1; [| exfalso; exact (Hbad _ Hok)].
      destruct (is_continuation b2) eqn:H2; [| exfalso; exact (Hbad _ Hok)].
      cbn [andb forallb] in Hok. apply andb_true_iff in Hok as [_ Hrest].
      destruct Hin as [Hin | [Hin | [Hin | Hin]]];
        [exfalso; exact (Hhead Hin) | exfalso; exact (Hcont _ H1 Hin)
         | exfalso; exact (Hcont _ H2 Hin) |].
      cbn [length] in Hlen.
      apply (IH r2); [lia | exact Hrest | exact Hin | exact Hb]. }
    destruct (N.leb 240 b0 && N.ltb b0 245).
    { destruct r0 as [| b1 [| b2 [| b3 r3]]]; try (exfalso; exact (Hbad _ Hok)).
      destruct (is_continuation b1) eqn:H1; [| exfalso; exact (Hbad _ Hok)].
      destruct (is_continuation b2) eqn:H2; [| exfalso; exact (Hbad _ Hok)].
      destruct (is_continuation b3) eqn:H3; [| exfalso; exact (Hbad _ Hok)].
      cbn [andb] in Hok. rewrite forallb_app in Hok.
      apply andb_true_iff in Hok as [_ Hrest].
      destruct Hin as [Hin | [Hin | [Hin | [Hin | Hin]]]];
        [exfalso; exact (Hhead Hin) | exfalso; exact (Hcont _ H1 Hin)
         | exfalso; exact (Hcont _ H2 Hin) | exfalso; exact (Hcont _ H3 Hin) |].
      cbn [length] in Hlen.
      apply (IH r3); [lia | exact Hrest | exact Hin | exact Hb]. }
    exfalso. exact (Hbad _ Hok).
Qed.

(** A file name with a control character other than TAB makes a
    Content-Disposition value that Node refuses. *)
Lemma control_char_refused (c : ascii) (name : string) :
  holds_char c name ->
  (N_of_ascii c < 32)%N -> N_of_ascii c <> 9%N ->
  header_value_ok (CONTENT_DISPOSITION name) = false.
Proof.
  intros Hin Hlow Htab.
  destruct (header_value_ok (CONTENT_DISPOSITION name)) eqn:Hok; [| reflexivity].
  exfalso.
  unfold header_value_ok, utf16_units in Hok.
  assert (Hc : header_char_ok (N_of_ascii c) = true).
  { apply (accepted_units_ascii _ _ (Nat.le_refl _) Hok); [| lia].
    apply in_map. unfold CONTENT_DISPOSITION.
    rewrite !list_ascii_of_string_append, !in_app_iff.
    right. right. left. exact Hin. }
  unfold header_char_ok in Hc.
  destruct (N.eqb_spec (N_of_ascii c) 9); [contradiction |].
  destruct (N.leb_spec 32 (N_of_ascii c)); [lia |].
  destruct (N.leb_spec 128 (N_of_ascii c)); [lia |].
  discriminate Hc.
Qed.

(* --------------------------------------------------------------------- *)
(** *** C1: style overrides ahead of the content                          *)
(* --------------------------------------------------------------------- *)

(** C1 (as the claim states it, refuted). In the [src/server.js] build a
    [POST /pdf] that asks for system fonts loads its content, and answers
    200, without any style override having been injected. *)
Lemma C1_counterexample :
  injected_before_content (calls_of (run (ServerJs.post_pdf fonts_body) ok_engine)) = Some [] /\
  injected (calls_of (run (ServerJs.post_pdf fonts_body) ok_engine)) = [] /\
  status (response_of (run (ServerJs.post_pdf fonts_body) ok_engine)) = 200.
Proof. repeat split; vm_compute; reflexivity. Qed.

(** C1 (amended). In the diagnostic build [part_001], on [POST /pdf],
    [POST /pdf-debug] and [GET /selftest], whenever the HTML content is
    loaded the visibility override (white background, text colour
    #0b1220) has been injected ahead of it; on the two POST routes the
    system-font override (Arial, sans-serif) follows it exactly when the
    request's [forceSystemFonts] is truthy, and is never injected
    otherwise, an absent flag counting as false; [GET /selftest] always
    injects both.  In the [src/server.js] and [part_000] builds no route
    injects any style override. *)
Theorem C1_style_overrides_in_diagnostic_build (e : Engine) (body : JsVal) :
  overrides_precede_content (style_overrides (truthy (get_prop body "forceSystemFonts")))
    (run (Part001.post_pdf body) e) /\
  overrides_precede_content (style_overrides (truthy (get_prop body "forceSystemFonts")))
    (run (Part001.post_pdf_debug body) e) /\
  overrides_precede_content (style_overrides true) (run Part001.get_selftest e) /\
  (forall (b : Build) (m : Method) (p : string) (h : JsVal -> M unit),
      routes b m p = Some h -> b <> part_001 ->
      injected (calls_of (run (h body) e)) = []) /\
  style_overrides (truthy undefined) = [Part001.VISIBILITY_CSS] /\
  ~ In Part001.SYSTEM_FONT_CSS (style_overrides false) /\
  includes "html,body{background:#fff !important;}" Part001.VISIBILITY_CSS = true /\
  includes "color:#0b1220 !important;" Part001.VISIBILITY_CSS = true /\
  includes "font-family: Arial, sans-serif !important;" Part001.SYSTEM_FONT_CSS = true.
Proof.
  split; [| split; [| split; [| split]]].
  5: { repeat split; try reflexivity.
       cbn [style_overrides In]. intros [H | []]. vm_compute in H. discriminate. }
  4: { intros b m p h Hr Hb. pick_route Hr; try contradiction.
       all: exec; reflexivity. }
  all: exec.
  all: cbv [overrides_precede_content injected_before_content injected calls_of
            option_map style_overrides].
  all: split; [intros tags Htags; try discriminate; inversion Htags; reflexivity
              | intros css Hin; cbn [In] in *; intuition].
Qed.

Lemma C1_witness :
  overrides_precede_content (style_overrides true)
    (run (Part001.post_pdf fonts_body) ok_engine) /\
  injected_before_content (calls_of (run (Part001.post_pdf fonts_body) ok_engine))
    = Some [Part001.VISIBILITY_CSS; Part001.SYSTEM_FONT_CSS] /\
  injected_before_content (calls_of (run (Part001.post_pdf hello_body) ok_engine))
    = Some [Part001.VISIBILITY_CSS].
Proof.
  split; [| split; vm_compute; reflexivity].
  exact (proj1 (C1_style_overrides_in_diagnostic_build ok_engine fonts_body)).
Defined.

(* --------------------------------------------------------------------- *)
(** *** C2: the session is released on every path                         *)
(* --------------------------------------------------------------------- *)

(** C2. Every handler of every build, against every engine and on every
    request body, releases the browser session it started: once a launch
    has resolved, [browser.close()] is the last engine call of the
    request, on the success path and on every failure path alike; no
    session is left open when the handler completes, and nothing is
    closed when no session was started. *)
Theorem C2_session_always_released (b : Build) (m : Method) (p : string)
    (h : JsVal -> M unit) (e : Engine) (body : JsVal) :
  routes b m p = Some h ->
  session_released (run (h body) e).
Proof.
  intros Hr. pick_route Hr.
  all: exec.
  all: cbv [session_released live_sessions session_started existsb is_session_start
            calls_of last Nat.pred orb].
  all: repeat split; intros; try reflexivity; try discriminate.
  all: cbn [In] in *; intuition discriminate.
Qed.

Lemma C2_witness :
  routes part_001 POST "/pdf" = Some Part001.post_pdf /\
  session_released (run (Part001.post_pdf hello_body) timeout_engine) /\
  calls_of (run (Part001.post_pdf hello_body) timeout_engine)
    = [Launch Part001.launch_args; NewPage undefined; EmulateMedia "screen";
       AddStyleTag Part001.VISIBILITY_CSS;
       SetContent (Some (JStr "<p>x</p>")) "networkidle" 30000;
       BrowserClose].
Proof.
  split; [reflexivity |]. split; [| vm_compute; reflexivity].
  apply (C2_session_always_released part_001 POST "/pdf"). reflexivity.
Defined.

(* --------------------------------------------------------------------- *)
(** *** C3: an invalid html is refused before any engine call             *)
(* --------------------------------------------------------------------- *)

(** C3. On [POST /pdf] and [POST /pdf-debug], in every build that has the
    route, a body whose [html] is missing, is the empty string, or is not
    a string is answered with status 400 and a JSON body that has an
    [error] field, and the log holds no engine call at all: no browser
    session is launched for that request. *)
Theorem C3_invalid_html_rejected (b : Build) (p : string) (h : JsVal -> M unit)
    (e : Engine) (body : JsVal) :
  routes b POST p = Some h ->
  p = "/pdf" \/ p = "/pdf-debug" ->
  get_prop body "html" = undefined \/
  get_prop body "html" = Some (JStr "") \/
  typeof (get_prop body "html") <> "string" ->
  status (response_of (run (h body) e)) = 400 /\
  (exists obj msg, sent_body (response_of (run (h body) e)) = JsonBody obj /\
                   obj !! "error" = Some (JStr msg)) /\
  calls_of (run (h body) e) = [].
Proof.
  intros Hr Hp Hbad. apply guard_rejects in Hbad.
  assert (Hrun : run (h body) e = [Http (Status 400); Http (SendJson MISSING_HTML)]).
  { destruct Hp as [-> | ->]; destruct b; cbn in Hr; inversion Hr; subst h; clear Hr.
    all: unfold run, ServerJs.post_pdf, Part000.post_pdf, Part001.post_pdf,
           ServerJs.post_pdf_debug, Part001.post_pdf_debug.
    all: rewrite !get_prop_or_empty, Hbad; reflexivity. }
  rewrite Hrun. split; [reflexivity |]. split; [| reflexivity].
  exists MISSING_HTML, "Missing or invalid 'html' field". split; reflexivity.
Qed.

Lemma C3_witness :
  status (response_of (run (ServerJs.post_pdf_debug (Some (JObj {[ "html" := JNum 7 ]})))
                           ok_engine)) = 400 /\
  (exists obj msg,
      sent_body (response_of (run (ServerJs.post_pdf_debug (Some (JObj {[ "html" := JNum 7 ]})))
                                  ok_engine)) = JsonBody obj /\
      obj !! "error" = Some (JStr msg)) /\
  calls_of (run (ServerJs.post_pdf_debug (Some (JObj {[ "html" := JNum 7 ]}))) ok_engine) = [].
Proof.
  apply (C3_invalid_html_rejected server_js "/pdf-debug").
  - reflexivity.
  - right. reflexivity.
  - right. right. vm_compute. discriminate.
Defined.

(* --------------------------------------------------------------------- *)
(** *** C4: a render failure is one error payload, never bytes            *)
(* --------------------------------------------------------------------- *)

(** C4 (as the claim states it, refuted). Two [POST /pdf] requests with
    a valid [html] on [src/server.js].  When the print step and the
    [browser.close()] that follows it in [renderPdfFromHtml] are both
    rejected, [details] carries the message of the close, not the one of
    the print step that failed first.  When [format] is an object that
    cannot be turned into text, the handler throws at its first log
    line, ahead of its [try]: nothing is asked of the engine and nothing
    is written, neither the PDF nor the error payload. *)
Lemma C4_counterexample :
  valid_html hello_body /\
  first_failure (run (post_pdf server_js hello_body) print_and_close_fail_engine)
    = Some (ErrorObj "page.pdf: Unknown paper format") /\
  ops_of (run (post_pdf server_js hello_body) print_and_close_fail_engine)
    = [Status 500; SendJson (RENDER_FAILED "browser.close: Target closed")] /\
  valid_html odd_format_body /\
  run (post_pdf server_js odd_format_body) ok_engine = [] /\
  completion (post_pdf server_js odd_format_body) ok_engine = Abrupt TYPE_ERROR /\
  ~ pdf_or_error (run (post_pdf server_js odd_format_body) ok_engine).
Proof.
  split; [exists "<p>x</p>"; split; [reflexivity | discriminate] |].
  split; [vm_compute; reflexivity |].
  split; [vm_compute; reflexivity |].
  split; [exists "<p>x</p>"; split; [reflexivity | discriminate] |].
  split; [vm_compute; reflexivity |].
  split; [vm_compute; reflexivity |].
  assert (Hrun : run (post_pdf server_js odd_format_body) ok_engine = [])
    by (vm_compute; reflexivity).
  rewrite Hrun.
  intros [(opts & pdf & _ & Hsent & _) | (details & Hsent & _)]; discriminate Hsent.
Qed.

(** C4 (amended). On [POST /pdf] with a valid [html], in every build and
    against every engine, when the handler gets as far as its [try]
    (always in [part_000]; in [src/server.js] and [part_001] when
    [format] can be turned into text for the first log line): if a step
    of the pipeline is rejected, the response is exactly status 500 with
    the JSON payload whose [error] is the fixed text "PDF rendering
    failed" and whose [details] is the message of a rejection that the
    log holds; that message is the one of the step that failed first,
    unless the [browser.close()] that follows inside [renderPdfFromHtml]
    is rejected as well, and then it is the message of the close; nothing
    else is written, no PDF byte in particular; and every response is
    either the bytes the print step resolved with, under status 200, or
    that error payload under status 500, never both. *)
Theorem C4_render_failure_is_one_error_payload (b : Build) (e : Engine) (body : JsVal)
    (s : string) :
  get_prop body "html" = Some (JStr s) ->
  s <> "" ->
  early_throw b body = false ->
  underlying_failure_reported (run (post_pdf b body) e) /\
  failure_reported (run (post_pdf b body) e) /\
  pdf_or_error (run (post_pdf b body) e) /\
  (forall details : string,
      RENDER_FAILED details !! "error" = Some (JStr "PDF rendering failed") /\
      RENDER_FAILED details !! "details" = Some (JStr details)) /\
  (forall message : string, details_of (ErrorObj message) = message).
Proof.
  intros Hhtml Hs Hearly.
  pose proof (guard_valid _ _ Hhtml Hs) as Hguard.
  assert (Hformat : b = part_000 \/
                    exists text, to_string (dflt (JStr "Letter") (get_prop body "format"))
                                 = Some text).
  { destruct b; [right | left; reflexivity | right].
    all: unfold early_throw, format_text in Hearly.
    all: destruct (to_string _) as [text |]; [exists text; reflexivity | discriminate]. }
  clear Hearly.
  assert (Hrun : underlying_failure_reported (run (post_pdf b body) e) /\
                 failure_reported (run (post_pdf b body) e) /\
                 pdf_or_error (run (post_pdf b body) e)).
  { destruct Hformat as [-> | [text Htext]]; [| destruct b].
    all: unfold_handlers; autorewrite with js_norm; rewrite Hguard;
      autorewrite with js_guard; rewrite ?(js_string_text _ _ Htext); exec.
    all: split; [| split].
    all: cbv [underlying_failure_reported first_failure close_rejected_first
              failure_reported existsb step_rejected orb reported_failure
              pdf_or_error ops_of].
    all: try (intros failed Hfirst Hclose;
              first [discriminate Hfirst | discriminate Hclose
                    | inversion Hfirst; subst; reflexivity]).
    all: try (intros Hrej; first
           [ discriminate Hrej
           | eexists _, _; split; [reflexivity |]; split; [reflexivity |];
             split; [cbn [In]; eauto 20 | reflexivity] ]).
    all: first
      [ right; eexists; split; reflexivity
      | left; eexists _, _; split; [cbn [In]; eauto 20 | split; reflexivity] ]. }
  destruct Hrun as (Hfirst & Hfail & Hone).
  split; [exact Hfirst |]. split; [exact Hfail |]. split; [exact Hone |].
  split; [exact render_failed_fields | reflexivity].
Qed.

Lemma C4_witness :
  underlying_failure_reported (run (post_pdf part_001 hello_body) timeout_engine) /\
  failure_reported (run (post_pdf part_001 hello_body) timeout_engine) /\
  pdf_or_error (run (post_pdf part_001 hello_body) timeout_engine) /\
  first_failure (run (post_pdf part_001 hello_body) timeout_engine)
    = Some (ErrorObj "page.setContent: Timeout 30000ms exceeded.") /\
  ops_of (run (post_pdf part_001 hello_body) timeout_engine)
    = [Status 500;
       SendJson (RENDER_FAILED "page.setContent: Timeout 30000ms exceeded.")].
Proof.
  destruct (C4_render_failure_is_one_error_payload part_001 timeout_engine hello_body
              "<p>x</p>") as (Hfirst & Hfail & Hone & _).
  - reflexivity.
  - discriminate.
  - reflexivity.
  - split; [exact Hfirst |]. split; [exact Hfail |]. split; [exact Hone |].
    split; vm_compute; reflexivity.
Defined.

(* --------------------------------------------------------------------- *)
(** *** C5: the margin, edge by edge                                      *)
(* --------------------------------------------------------------------- *)

(** C5. In every build the margin that [POST /pdf] passes to the print
    step is the request's [margin] spread over the defaults top 12mm,
    right 12mm, bottom 16mm, left 12mm: each edge is the request's value
    when the request's margin has that edge and the default otherwise.
    In particular a margin object that supplies a single edge changes
    that edge and leaves every other edge at its default. *)
Theorem C5_margin_defaults_overridden_per_edge (b : Build) (e : Engine) (body : JsVal)
    (opts : PdfOptions) :
  In opts (pdf_options (calls_of (run (post_pdf b body) e))) ->
  (forall edge : string,
      opt_margin opts !! edge =
      match spread_entries (get_prop body "margin") !! edge with
      | Some v => Some v
      | None => default_margin !! edge
      end) /\
  (forall (edge other : string) (v : Json),
      get_prop body "margin" = Some (JObj {[ edge := v ]}) ->
      opt_margin opts !! edge = Some v /\
      (other <> edge -> opt_margin opts !! other = default_margin !! other)) /\
  default_margin !! "top" = Some (JStr "12mm") /\
  default_margin !! "right" = Some (JStr "12mm") /\
  default_margin !! "bottom" = Some (JStr "16mm") /\
  default_margin !! "left" = Some (JStr "12mm").
Proof.
  intros Hin. apply print_margin in Hin.
  split; [| split; [| repeat split; reflexivity]].
  - intros edge. rewrite Hin. apply margin_lookup.
  - intros edge other v Hreq.
    rewrite Hin, Hreq.
    split.
    + rewrite margin_lookup. cbn [spread_entries].
      rewrite lookup_singleton_eq. reflexivity.
    + intros Hne. rewrite margin_lookup. cbn [spread_entries].
      rewrite lookup_singleton_ne by congruence. reflexivity.
Qed.

Lemma C5_witness :
  let opts := {| opt_format := Some (JStr "Letter");
                 opt_printBackground := true;
                 opt_preferCSSPageSize := true;
                 opt_margin := object_spread default_margin
                                 (Some (JObj {[ "top" := JStr "5mm" ]}));
                 opt_displayHeaderFooter := false |} in
  pdf_options (calls_of (run (post_pdf server_js top_margin_body) ok_engine)) = [opts] /\
  opt_margin opts !! "top" = Some (JStr "5mm") /\
  opt_margin opts !! "right" = Some (JStr "12mm") /\
  opt_margin opts !! "bottom" = Some (JStr "16mm") /\
  opt_margin opts !! "left" = Some (JStr "12mm").
Proof.
  intros opts.
  assert (Hin : In opts (pdf_options
                           (calls_of (run (post_pdf server_js top_margin_body) ok_engine)))).
  { left. vm_compute. reflexivity. }
  destruct (C5_margin_defaults_overridden_per_edge server_js ok_engine top_margin_body
              opts Hin) as (_ & Hone & Htop & Hright & Hbottom & Hleft).
  split; [vm_compute; reflexivity |].
  split; [exact (proj1 (Hone "top" "top" (JStr "5mm") eq_refl)) |].
  split; [rewrite (proj2 (Hone "top" "right" (JStr "5mm") eq_refl)) by discriminate;
          exact Hright |].
  split; [rewrite (proj2 (Hone "top" "bottom" (JStr "5mm") eq_refl)) by discriminate;
          exact Hbottom |].
  rewrite (proj2 (Hone "top" "left" (JStr "5mm") eq_refl)) by discriminate.
  exact Hleft.
Defined.

(* --------------------------------------------------------------------- *)
(** *** C6: the launch flags                                              *)
(* --------------------------------------------------------------------- *)

(** C6 (as the claim states it, refuted). In the [src/server.js] build a
    successful [POST /pdf] launches the browser with two flags only:
    [--disable-gpu] and [--font-render-hinting=none] are not passed. *)
Lemma C6_counterexample :
  launches (calls_of (run (ServerJs.post_pdf hello_body) ok_engine))
    = [["--no-sandbox"; "--disable-dev-shm-usage"]] /\
  ~ In "--disable-gpu" ["--no-sandbox"; "--disable-dev-shm-usage"] /\
  ~ In "--font-render-hinting=none" ["--no-sandbox"; "--disable-dev-shm-usage"].
Proof.
  split; [vm_compute; reflexivity |].
  split; cbn [In]; intuition discriminate.
Qed.

(** C6 (amended). Within one build every launch, on every route and for
    every request, uses the same fixed flag list, and that list always
    disables the sandbox.  The list is the four flags (no sandbox, no
    /dev/shm use, no GPU, no font hinting) in the diagnostic build
    [part_001]; it is [--no-sandbox] and [--disable-dev-shm-usage] in
    [src/server.js], and [--no-sandbox] alone in [part_000]. *)
Theorem C6_launch_flags_fixed_per_build (b : Build) (m : Method) (p : string)
    (h : JsVal -> M unit) (e : Engine) (body : JsVal) :
  routes b m p = Some h ->
  launched_with (launch_args b) (run (h body) e) /\
  In "--no-sandbox" (launch_args b) /\
  launch_args part_001 = ["--no-sandbox"; "--disable-dev-shm-usage"; "--disable-gpu";
                          "--font-render-hinting=none"] /\
  launch_args server_js = ["--no-sandbox"; "--disable-dev-shm-usage"] /\
  launch_args part_000 = ["--no-sandbox"].
Proof.
  intros Hr. split; [| split; [destruct b; cbn; auto | repeat split]].
  pick_route Hr.
  all: exec.
  all: cbv [launched_with launches calls_of launch_args]; intros args Hin.
  all: cbn [In] in Hin; intuition.
Qed.

Lemma C6_witness :
  launched_with (launch_args part_001) (run (Part001.post_pdf_debug hello_body) ok_engine) /\
  In "--no-sandbox" (launch_args part_001) /\
  launch_args part_001 = ["--no-sandbox"; "--disable-dev-shm-usage"; "--disable-gpu";
                          "--font-render-hinting=none"] /\
  launch_args server_js = ["--no-sandbox"; "--disable-dev-shm-usage"] /\
  launch_args part_000 = ["--no-sandbox"].
Proof.
  apply (C6_launch_flags_fixed_per_build part_001 POST "/pdf-debug"). reflexivity.
Defined.

(* --------------------------------------------------------------------- *)
(** *** C7: the two waits                                                 *)
(* --------------------------------------------------------------------- *)

(** C7. In every build and on every route, the content load asks for
    network idle with a timeout of 30000 ms; if it is rejected (a timeout
    included) no print or screenshot is attempted and the answer is a
    500; and the outcome of the font-readiness wait is invisible: with
    the wait resolving or rejecting, in any way, the engine sees the same
    calls and the client the same response. *)
Theorem C7_content_wait_fatal_font_wait_ignored (b : Build) (m : Method) (p : string)
    (h : JsVal -> M unit) (e : Engine) (body : JsVal) (o1 o2 : Outcome) :
  routes b m p = Some h ->
  content_wait_fixed (run (h body) e) /\
  content_load_fatal (run (h body) e) /\
  observably_equal (run (h body) (with_font_wait o1 e)) (run (h body) (with_font_wait o2 e)).
Proof.
  intros Hr. split; [| split].
  - clear o1 o2. pick_route Hr.
    all: exec.
    all: cbv [content_wait_fixed content_loads calls_of]; cbn [In].
    all: intros w t Hin; intuition congruence.
  - clear o1 o2. pick_route Hr.
    all: exec.
    all: cbv [content_load_fatal existsb content_load_rejected orb].
    all: intros Hrej; try discriminate Hrej.
    all: split; reflexivity.
  - destruct (font_wait_invisible b m p h e body o1 Hr) as [Hres1 Hcalls1].
    destruct (font_wait_invisible b m p h e body o2 Hr) as [Hres2 Hcalls2].
    split; congruence.
Qed.

Lemma C7_witness :
  content_wait_fixed (run (Part000.post_pdf hello_body) timeout_engine) /\
  content_load_fatal (run (Part000.post_pdf hello_body) timeout_engine) /\
  observably_equal
    (run (Part000.post_pdf hello_body)
         (with_font_wait (Rejects (ErrorObj "fonts never ready")) ok_engine))
    (run (Part000.post_pdf hello_body) (with_font_wait (Resolves []) ok_engine)) /\
  status (response_of (run (Part000.post_pdf hello_body)
                           (with_font_wait (Rejects (ErrorObj "fonts never ready")) ok_engine)))
    = 200.
Proof.
  destruct (C7_content_wait_fatal_font_wait_ignored part_000 POST "/pdf" Part000.post_pdf
              timeout_engine hello_body (Resolves []) (Resolves []) eq_refl)
    as (Hwait & Hfatal & _).
  destruct (C7_content_wait_fatal_font_wait_ignored part_000 POST "/pdf" Part000.post_pdf
              ok_engine hello_body (Rejects (ErrorObj "fonts never ready")) (Resolves [])
              eq_refl)
    as (_ & _ & Hfont).
  split; [exact Hwait |]. split; [exact Hfatal |]. split; [exact Hfont |].
  vm_compute. reflexivity.
Defined.

(* --------------------------------------------------------------------- *)
(** *** C8: what the file name can influence                              *)
(* --------------------------------------------------------------------- *)

(** C8 (as the claim states it, refuted). Two [POST /pdf] requests that
    differ in [filename] only, against the same engine: with the name
    a.pdf the answer is 200; with a name that holds a line feed, the
    response layer refuses the header value, the handler's catch clause
    takes over, and the answer is 500 with the error payload. *)
Lemma C8_counterexample :
  same_but_filename (named_body "a.pdf") (named_body ("a" +:+ LF +:+ "b.pdf")) /\
  status (response_of (run (post_pdf server_js (named_body "a.pdf")) ok_engine)) = 200 /\
  sent_body (response_of (run (post_pdf server_js (named_body "a.pdf")) ok_engine))
    = Bytes PDF_BYTES /\
  status (response_of (run (post_pdf server_js (named_body ("a" +:+ LF +:+ "b.pdf")))
                           ok_engine)) = 500 /\
  sent_body (response_of (run (post_pdf server_js (named_body ("a" +:+ LF +:+ "b.pdf")))
                              ok_engine))
    = JsonBody (RENDER_FAILED (details_of (invalid_header_char "Content-Disposition"))).
Proof.
  split; [apply named_bodies_same_but_filename |].
  repeat split; vm_compute; reflexivity.
Qed.

(** C8 (amended). For two [POST /pdf] bodies that agree on every property
    but [filename], in every build and against every engine: the engine
    is driven through the same calls with the same outcomes, so the
    render pipeline produces the same bytes or the same failure;
    whenever both file names lead to a Content-Disposition value that can
    be set (the name can be turned into text and the value is acceptable
    header content), the two responses have the same status, the same
    Content-Type and the same body, and differ in the Content-Disposition
    header at most; and whenever both lead to a value that can be set, or
    both to one that cannot, the two responses have the same status. *)
Theorem C8_filename_reaches_only_the_header (b : Build) (e : Engine) (body1 body2 : JsVal) :
  same_but_filename body1 body2 ->
  engine_events (run (post_pdf b body1) e) = engine_events (run (post_pdf b body2) e) /\
  (disposition_ok body1 = true -> disposition_ok body2 = true ->
   differ_in_disposition_only (run (post_pdf b body1) e) (run (post_pdf b body2) e)) /\
  (disposition_ok body1 = disposition_ok body2 ->
   status (response_of (run (post_pdf b body1) e))
     = status (response_of (run (post_pdf b body2) e))).
Proof.
  intros Hsame.
  pose proof (Hsame "html" ltac:(discriminate)) as Hhtml.
  pose proof (Hsame "baseURL" ltac:(discriminate)) as Hbase.
  pose proof (Hsame "format" ltac:(discriminate)) as Hformat.
  pose proof (Hsame "margin" ltac:(discriminate)) as Hmargin.
  pose proof (Hsame "forceSystemFonts" ltac:(discriminate)) as Hfonts.
  clear Hsame.
  destruct b; unfold_handlers; autorewrite with js_norm;
    rewrite Hhtml, Hbase, Hformat, Hmargin, ?Hfonts;
    exec.
  all: simplify_eq.
  all: split; [reflexivity |].
  all: cbv [disposition_ok disposition_of filename_of option_map CONTENT_DISPOSITION].
  all: repeat match goal with
         | H : to_string _ = _ |- _ => rewrite H
         | H : header_value_ok _ = _ |- _ => rewrite H
         end.
  all: split; [intros Hok1 Hok2; try discriminate Hok1; try discriminate Hok2
              | intros Hboth; try discriminate Hboth; try reflexivity].
  all: cbv [differ_in_disposition_only]; read_response.
  all: repeat split; try reflexivity.
  all: intros name Hne; rewrite ?(lookup_insert_ne _ "Content-Disposition") by congruence.
  all: reflexivity.
Qed.

Lemma C8_witness :
  engine_events (run (post_pdf part_001 (named_body "a.pdf")) ok_engine)
    = engine_events (run (post_pdf part_001 (named_body "b.pdf")) ok_engine) /\
  differ_in_disposition_only (run (post_pdf part_001 (named_body "a.pdf")) ok_engine)
                             (run (post_pdf part_001 (named_body "b.pdf")) ok_engine) /\
  status (response_of (run (post_pdf part_001 (named_body ("a" +:+ LF))) ok_engine))
    = status (response_of (run (post_pdf part_001 odd_name_body) ok_engine)).
Proof.
  destruct (C8_filename_reaches_only_the_header part_001 ok_engine
              (named_body "a.pdf") (named_body "b.pdf")
              (named_bodies_same_but_filename "a.pdf" "b.pdf")) as (Hcalls & Hresp & _).
  split; [exact Hcalls |].
  split; [apply Hresp; vm_compute; reflexivity |].
  vm_compute. reflexivity.
Defined.

(* --------------------------------------------------------------------- *)
(** *** C9: the body limit                                                *)
(* --------------------------------------------------------------------- *)

(** C9. The JSON body parser is configured with a limit of 20 MB
    (20 * 1024 * 1024 bytes) and runs ahead of every route: a request
    with a JSON body longer than that is answered 413 by Express's final
    handler, and the log of the request holds nothing else: no route
    handler ran, so no validation response was written and no browser was
    launched. *)
Theorem C9_oversized_body_never_reaches_a_handler (b : Build) (e : Engine) (req : Request) :
  json_typed req = true ->
  (json_limit < body_length req)%N ->
  json_limit = 20971520%N /\
  run (app b req) e = [Http (Status 413); Http ErrorPage] /\
  calls_of (run (app b req) e) = [].
Proof.
  intros Hjson Hbig.
  assert (Hparse : express_json json_limit req = ParserError 413).
  { unfold json_typed in Hjson. unfold express_json.
    destruct (media req); try discriminate Hjson.
    apply N.ltb_lt in Hbig. rewrite Hbig. reflexivity. }
  assert (Hrun : run (app b req) e = [Http (Status 413); Http ErrorPage]).
  { unfold app, express. rewrite Hparse. reflexivity. }
  rewrite Hrun. repeat split; reflexivity.
Qed.

Lemma C9_witness :
  json_limit = 20971520%N /\
  run (app part_001 big_request) ok_engine = [Http (Status 413); Http ErrorPage] /\
  calls_of (run (app part_001 big_request) ok_engine) = [].
Proof.
  apply (C9_oversized_body_never_reaches_a_handler part_001 ok_engine big_request).
  - reflexivity.
  - vm_compute. reflexivity.
Defined.

(* --------------------------------------------------------------------- *)
(** *** C10: the Content-Disposition header                               *)
(* --------------------------------------------------------------------- *)

(** C10 (as the claim states it, refuted). A [POST /pdf] whose [filename]
    holds a carriage return and a line feed, against an engine that
    prints: the response layer refuses the header value, so the answer is
    the 500 error payload and no Content-Disposition header is set; the
    two characters do not appear in any header value. *)
Lemma C10_counterexample :
  get_prop (named_body ("a" +:+ CR +:+ LF +:+ "b.pdf")) "filename"
    = Some (JStr ("a" +:+ CR +:+ LF +:+ "b.pdf")) /\
  existsb call_rejected
    (run (post_pdf server_js (named_body ("a" +:+ CR +:+ LF +:+ "b.pdf"))) ok_engine) = false /\
  status (response_of (run (post_pdf server_js (named_body ("a" +:+ CR +:+ LF +:+ "b.pdf")))
                           ok_engine)) = 500 /\
  headers (response_of (run (post_pdf server_js (named_body ("a" +:+ CR +:+ LF +:+ "b.pdf")))
                            ok_engine)) !! "Content-Disposition" = None /\
  headers (response_of (run (post_pdf part_000 (named_body ("a" +:+ CR +:+ LF +:+ "b.pdf")))
                            ok_engine)) !! "Content-Disposition" = None /\
  headers (response_of (run (post_pdf part_001 (named_body ("a" +:+ CR +:+ LF +:+ "b.pdf")))
                            ok_engine)) !! "Content-Disposition" = None.
Proof. repeat split; vm_compute; reflexivity. Qed.

(** C10 (amended). On [POST /pdf] with a [filename] string, in every
    build: on every successful response the Content-Disposition header is
    exactly the text [inline; filename=], a double quote, the request's
    [filename] string as it is, and a closing double quote, with no
    escaping and no sanitisation, so a double quote in the name appears
    unmodified in the value; a name that makes the value unacceptable
    header content, and every name that holds a carriage return or a line
    feed does, is never answered 200 and no Content-Disposition header is
    set for it; and a name that makes an acceptable value is answered 200
    whenever the [html] is valid, the handler gets as far as its [try]
    and the engine rejects no call of the render. *)
Theorem C10_content_disposition_verbatim (b : Build) (e : Engine) (body : JsVal)
    (name : string) :
  get_prop body "filename" = Some (JStr name) ->
  (status (response_of (run (post_pdf b body) e)) = 200 ->
   headers (response_of (run (post_pdf b body) e)) !! "Content-Disposition"
     = Some ("inline; filename=" +:+ DQ +:+ name +:+ DQ)) /\
  (header_value_ok (CONTENT_DISPOSITION name) = false ->
   status (response_of (run (post_pdf b body) e)) <> 200 /\
   headers (response_of (run (post_pdf b body) e)) !! "Content-Disposition" = None) /\
  (holds_char "013"%char name \/ holds_char "010"%char name ->
   header_value_ok (CONTENT_DISPOSITION name) = false) /\
  (header_value_ok (CONTENT_DISPOSITION name) = true ->
   valid_html body ->
   early_throw b body = false ->
   existsb call_rejected (run (post_pdf b body) e) = false ->
   status (response_of (run (post_pdf b body) e)) = 200).
Proof.
  intros Hname.
  assert (Hcontrol : holds_char "013"%char name \/ holds_char "010"%char name ->
                     header_value_ok (CONTENT_DISPOSITION name) = false).
  { intros [Hcr | Hlf].
    - apply (control_char_refused "013"%char name Hcr); [reflexivity | discriminate].
    - apply (control_char_refused "010"%char name Hlf); [reflexivity | discriminate]. }
  assert (Hrun :
    (status (response_of (run (post_pdf b body) e)) = 200 ->
     headers (response_of (run (post_pdf b body) e)) !! "Content-Disposition"
       = Some ("inline; filename=" +:+ DQ +:+ name +:+ DQ)) /\
    (header_value_ok (CONTENT_DISPOSITION name) = false ->
     status (response_of (run (post_pdf b body) e)) <> 200 /\
     headers (response_of (run (post_pdf b body) e)) !! "Content-Disposition" = None) /\
    (header_value_ok (CONTENT_DISPOSITION name) = true ->
     valid_html body ->
     early_throw b body = false ->
     existsb call_rejected (run (post_pdf b body) e) = false ->
     status (response_of (run (post_pdf b body) e)) = 200)).
  { unfold valid_html, early_throw, format_text, CONTENT_DISPOSITION.
    destruct b; unfold_handlers; autorewrite with js_norm; rewrite Hname;
      cbn [dflt to_string json_to_string js_string]; exec.
    all: read_response.
    all: split; [| split].
    all: first
      [ solve [ intros Hok; try discriminate Hok; apply lookup_insert_eq ]
      | solve [ intros Hbad; try discriminate Hbad;
                split; [discriminate |];
                rewrite ?(lookup_insert_ne _ "Content-Type" "Content-Disposition")
                  by discriminate;
                reflexivity ]
      | intros Hok (markup & Hhtml & Hmarkup) Hearly;
        try discriminate Hearly; try discriminate Hok;
        try (rewrite (guard_valid _ _ Hhtml Hmarkup) in *; discriminate);
        cbv [existsb call_rejected orb]; intros Hrej; try discriminate Hrej;
        reflexivity ]. }
  destruct Hrun as (Hverbatim & Hrefused & Hanswered).
  split; [exact Hverbatim |]. split; [exact Hrefused |].
  split; [exact Hcontrol | exact Hanswered].
Qed.

Lemma C10_witness :
  headers (response_of (run (post_pdf server_js (named_body ("a" +:+ DQ +:+ "b.pdf")))
                            ok_engine)) !! "Content-Disposition"
    = Some ("inline; filename=" +:+ DQ +:+ ("a" +:+ DQ +:+ "b.pdf") +:+ DQ) /\
  status (response_of (run (post_pdf server_js (named_body ("a" +:+ LF +:+ "b.pdf")))
                           ok_engine)) <> 200 /\
  headers (response_of (run (post_pdf server_js (named_body ("a" +:+ LF +:+ "b.pdf")))
                            ok_engine)) !! "Content-Disposition" = None.
Proof.
  split.
  - destruct (C10_content_disposition_verbatim server_js ok_engine
                (named_body ("a" +:+ DQ +:+ "b.pdf")) ("a" +:+ DQ +:+ "b.pdf") eq_refl)
      as (Hverbatim & _ & _ & Hanswered).
    apply Hverbatim. apply Hanswered.
    + vm_compute. reflexivity.
    + exists "<p>x</p>". split; [reflexivity | discriminate].
    + reflexivity.
    + vm_compute. reflexivity.
  - destruct (C10_content_disposition_verbatim server_js ok_engine
                (named_body ("a" +:+ LF +:+ "b.pdf")) ("a" +:+ LF +:+ "b.pdf") eq_refl)
      as (_ & Hrefused & Hcontrol & _).
    apply Hrefused. apply Hcontrol. right.
    unfold holds_char. cbn. right. left. reflexivity.
Defined.

(* ===================================================================== *)
(** ** 12. Further properties of the handlers                             *)
(* ===================================================================== *)

Lemma quiet_after_failure_sound (tr : list Event) :
  quiet_after_failure tr = true -> fail_fast tr.
Proof.
  intros Hq pre. revert tr Hq.
  induction pre as [| x pre IH]; intros tr Hq post ev -> Hrej c o Hin.
  - cbn in Hq. rewrite Hrej in Hq.
    rewrite forallb_forall in Hq. specialize (Hq _ Hin).
    destruct c; cbn in Hq; try discriminate. reflexivity.
  - cbn [Datatypes.app quiet_after_failure] in Hq.
    destruct (step_rejected x) eqn:Hx.
    + rewrite forallb_forall in Hq.
      assert (Hev : close_or_response ev = true).
      { apply Hq. apply in_or_app. right. left. reflexivity. }
      destruct ev as [c' o' | op]; [| discriminate Hrej].
      destruct c'; cbn in Hev, Hrej; discriminate.
    + exact (IH _ Hq post ev eq_refl Hrej c o Hin).
Qed.

Lemma or_undefined (v : JsVal) :
  js_or (dflt JNull v) undefined = if truthy v then v else undefined.
Proof. destruct v as [[| | | | |]|]; cbn; try reflexivity; destruct (negb _); reflexivity. Qed.

Lemma spread_nothing_defaults (v : JsVal) :
  spreads_nothing v = true -> object_spread default_margin v = default_margin.
Proof.
  intros Hv. unfold object_spread.
  destruct v as [[| | | | |]|]; try discriminate Hv; cbn [spread_entries];
    apply (left_id_L ∅ (∪)).
Qed.


(** X1. [GET /healthz] answers 200 with the text ok in every build,
    whatever the engine would do and without asking it anything, for
    every request that the body parser lets through. *)
Theorem X1_healthz_needs_no_engine (b : Build) (e : Engine) (req : Request) :
  method req = GET ->
  path req = "/healthz" ->
  (forall code : Z, express_json json_limit req <> ParserError code) ->
  run (app b req) e = [Http (Status 200); Http (SendText "ok")] /\
  calls_of (run (app b req) e) = [].
Proof.
  intros Hm Hp Hparse.
  assert (Hrun : run (app b req) e = [Http (Status 200); Http (SendText "ok")]).
  { unfold app, express. rewrite Hm, Hp.
    destruct (express_json json_limit req) eqn:Hj.
    - destruct b; reflexivity.
    - destruct b; reflexivity.
    - exfalso. exact (Hparse code eq_refl). }
  rewrite Hrun. split; reflexivity.
Qed.

Lemma X1_witness :
  run (app part_000 health_probe) timeout_engine = [Http (Status 200); Http (SendText "ok")] /\
  calls_of (run (app part_000 health_probe) timeout_engine) = [].
Proof.
  apply X1_healthz_needs_no_engine; try reflexivity.
  intros code. vm_compute. discriminate.
Defined.

(** X2. The engine is asked something only on the render routes: if the
    log of a request holds an engine call, the request is a POST on the
    path [/pdf], or, in the builds that have them, a POST on
    [/pdf-debug] or a GET or HEAD on [/selftest], the path being
    compared as Express does, without regard to case and with an
    optional trailing slash.  No other method or path, and no request
    the body parser refuses, ever launches a browser. *)
Theorem X2_engine_only_on_render_routes (b : Build) (e : Engine) (req : Request) :
  calls_of (run (app b req) e) <> [] ->
  (method req = POST /\ path_is "/pdf" (path req) = true) \/
  (b <> part_000 /\
   ((method req = POST /\ path_is "/pdf-debug" (path req) = true) \/
    ((method req = GET \/ method req = HEAD) /\ path_is "/selftest" (path req) = true))).
Proof.
  unfold app, express, allowed_methods. intros Hcalls.
  destruct (express_json json_limit req) eqn:Hj;
    try (exfalso; apply Hcalls; reflexivity).
  all: destruct b, (method req) eqn:Hm;
    cbn [routes ServerJs.routes Part000.routes Part001.routes] in Hcalls;
    try (exfalso; apply Hcalls; reflexivity).
  all: repeat match type of Hcalls with
         | context [if path_is ?x ?y then _ else _] =>
             destruct (path_is x y) eqn:?
         end;
    try (exfalso; apply Hcalls; reflexivity).
  all: first [ left; split; [reflexivity | solve [auto]]
             | right; split; [discriminate |];
               first [ left; split; [reflexivity | solve [auto]]
                     | right; split; solve [auto] ] ].
Qed.

Lemma X2_witness :
  calls_of (run (app server_js head_selftest) ok_engine) <> [] /\
  method head_selftest = HEAD /\
  path_is "/selftest" (path head_selftest) = true.
Proof.
  assert (Hcalls : calls_of (run (app server_js head_selftest) ok_engine) <> []).
  { vm_compute. discriminate. }
  split; [exact Hcalls |].
  destruct (X2_engine_only_on_render_routes server_js ok_engine head_selftest Hcalls)
    as [[Hm _] | [_ [[Hm _] | [_ Hp]]]].
  - discriminate Hm.
  - discriminate Hm.
  - split; [reflexivity | exact Hp].
Defined.

(** X3. On the POST routes of every build the guard decides first: the
    answer is 400 exactly when [html] is not a non-empty string, and
    then no browser is launched.  A valid [html] gets one browser
    launch, with the flags of the build, unless the handler throws
    ahead of its [try]: that is [POST /pdf] of [src/server.js] and
    [part_001] with a [format] that its first log line cannot turn into
    text, and then nothing is launched and nothing is answered. *)
Theorem X3_guard_decides_launch (b : Build) (p : string) (h : JsVal -> M unit)
    (e : Engine) (body : JsVal) :
  routes b POST p = Some h ->
  guard_decides (launch_args b) (throws_before_try b p body) body (run (h body) e).
Proof.
  intros Hr.
  destruct (negb (truthy (get_prop body "html"))
            || negb (String.eqb (typeof (get_prop body "html")) "string")) eqn:Hguard.
  - assert (Hbad : ~ valid_html body).
    { intros (s & Hs & Hne). rewrite (guard_valid _ _ Hs Hne) in Hguard. discriminate. }
    pick_handler b Hr.
    all: unfold_handlers; autorewrite with js_norm; rewrite Hguard.
    all: cbv [guard_decides]; repeat split; intros; try reflexivity; tauto.
  - assert (Hok : valid_html body) by exact (guard_accepts _ Hguard).
    pick_handler b Hr.
    all: unfold throws_before_try, early_throw, format_text.
    all: repeat match goal with
           | H : path_is _ _ = _ |- _ => rewrite H
           end; cbn [andb].
    all: unfold_handlers; autorewrite with js_norm; rewrite Hguard; exec.
    all: cbv [guard_decides launches calls_of launch_args]; read_response.
    all: repeat split; intros; try reflexivity; try discriminate; tauto.
Qed.

Lemma X3_witness :
  guard_decides (launch_args server_js) false hello_body
    (run (ServerJs.post_pdf_debug hello_body) print_fails_engine) /\
  launches (calls_of (run (ServerJs.post_pdf_debug hello_body) print_fails_engine))
    = [["--no-sandbox"; "--disable-dev-shm-usage"]] /\
  guard_decides (launch_args server_js) true odd_format_body
    (run (ServerJs.post_pdf odd_format_body) ok_engine) /\
  run (ServerJs.post_pdf odd_format_body) ok_engine = [].
Proof.
  split; [| split; [vm_compute; reflexivity | split; [| vm_compute; reflexivity]]].
  - apply (X3_guard_decides_launch server_js "/pdf-debug"). reflexivity.
  - apply (X3_guard_decides_launch server_js "/pdf"). reflexivity.
Defined.


(** The request that is answered nothing. *)
Example early_throw_answers_nothing :
  unanswered_early_throw server_js odd_format_request
    (run (app server_js odd_format_request) ok_engine).
Proof.
  split; [vm_compute; reflexivity |].
  split; [reflexivity |]. split; [reflexivity |].
  split; [exists "<p>x</p>"; split; [reflexivity | discriminate] | reflexivity].
Qed.

(** X5. The pipeline stops at the first rejected step: on every route of
    every build, once an engine call other than the font wait has been
    rejected, the only thing still asked of the engine is
    [browser.close()]; no later step is attempted. *)
Theorem X5_nothing_after_a_rejected_step (b : Build) (m : Method) (p : string)
    (h : JsVal -> M unit) (e : Engine) (body : JsVal) :
  routes b m p = Some h ->
  fail_fast (run (h body) e).
Proof.
  intros Hr. apply quiet_after_failure_sound.
  pick_route Hr.
  all: exec.
  all: reflexivity.
Qed.

Lemma X5_witness :
  fail_fast (run (Part001.post_pdf hello_body) timeout_engine) /\
  calls_of (run (Part001.post_pdf hello_body) timeout_engine)
    = [Launch Part001.launch_args; NewPage undefined; EmulateMedia "screen";
       AddStyleTag Part001.VISIBILITY_CSS;
       SetContent (Some (JStr "<p>x</p>")) "networkidle" 30000;
       BrowserClose].
Proof.
  split; [| vm_compute; reflexivity].
  apply (X5_nothing_after_a_rejected_step part_001 POST "/pdf"). reflexivity.
Defined.

(** X6. In the [src/server.js] and [part_001] builds the page is switched
    to screen media ahead of every content load, on every route, and no
    other media is ever emulated; the [part_000] build never emulates a
    media. *)
Theorem X6_screen_media_before_content (b : Build) (m : Method) (p : string)
    (h : JsVal -> M unit) (e : Engine) (body : JsVal) :
  routes b m p = Some h ->
  (b <> part_000 -> screen_before_content (run (h body) e)) /\
  (b = part_000 -> emulated (calls_of (run (h body) e)) = []).
Proof.
  intros Hr. split; intros Hb.
  - pick_route Hr; try contradiction.
    all: exec.
    all: cbv [screen_before_content emulated_before_content emulated calls_of option_map].
    all: split; [intros ms Hms; try discriminate; inversion Hms; reflexivity
                | intros media Hin; cbn [In] in Hin; intuition].
  - pick_route Hr; try discriminate.
    all: exec; reflexivity.
Qed.

Lemma X6_witness :
  screen_before_content (run (ServerJs.post_pdf hello_body) ok_engine) /\
  emulated_before_content (calls_of (run (ServerJs.post_pdf hello_body) ok_engine))
    = Some ["screen"] /\
  emulated (calls_of (run (Part000.post_pdf hello_body) ok_engine)) = [].
Proof.
  split; [| split; vm_compute; reflexivity].
  apply (X6_screen_media_before_content server_js POST "/pdf" ServerJs.post_pdf);
    [reflexivity | discriminate].
Defined.

(** X7. Every print call of [POST /pdf], in every build, prints
    backgrounds, prefers the page size of the CSS and shows no header or
    footer; its page format is the request's [format] whenever the body
    has the property, [null] included, and Letter only when it is
    absent. *)
Theorem X7_print_options (b : Build) (e : Engine) (body : JsVal) :
  print_options_fixed (get_prop body "format") (run (post_pdf b body) e).
Proof.
  destruct b; exec.
  all: cbv [print_options_fixed pdf_options calls_of]; cbn [In].
  all: intros opts Hin; try contradiction.
  all: destruct Hin as [<- | []].
  all: cbn [opt_printBackground opt_preferCSSPageSize opt_displayHeaderFooter opt_format].
  all: repeat split; destruct (get_prop body "format"); reflexivity.
Qed.

(** X8. On the POST routes of every build the page is opened on the
    request's [baseURL] when that value is truthy and on [undefined]
    otherwise: an absent, null, empty, zero or false [baseURL] is not
    handed to the engine. *)
Theorem X8_base_url_or_undefined (b : Build) (p : string) (h : JsVal -> M unit)
    (e : Engine) (body : JsVal) :
  routes b POST p = Some h ->
  pages_opened_on (get_prop body "baseURL") (run (h body) e).
Proof.
  intros Hr. pick_handler b Hr.
  all: exec.
  all: cbv [pages_opened_on new_pages calls_of]; cbn [In].
  all: intros u Hin; try contradiction.
  all: destruct Hin as [<- | []]; apply or_undefined.
Qed.

Lemma X8_witness :
  pages_opened_on undefined (run (Part000.post_pdf hello_body) ok_engine) /\
  new_pages (calls_of (run (Part000.post_pdf hello_body) ok_engine)) = [undefined] /\
  new_pages (calls_of (run (Part000.post_pdf
                              (Some (JObj (<["html" := JStr "<p>x</p>"]>
                                           {[ "baseURL" := JStr "" ]}))))
                           ok_engine)) = [undefined].
Proof.
  split; [| split; vm_compute; reflexivity].
  apply (X8_base_url_or_undefined part_000 "/pdf" Part000.post_pdf ok_engine hello_body).
  reflexivity.
Defined.

(** X9. On the POST routes of every build a content load is only ever
    given the [html] property of the body, unchanged, and only when it is
    a non-empty string. *)
Theorem X9_html_loaded_as_posted (b : Build) (p : string) (h : JsVal -> M unit)
    (e : Engine) (body : JsVal) :
  routes b POST p = Some h ->
  html_loaded_verbatim body (run (h body) e).
Proof.
  intros Hr. pick_handler b Hr.
  all: exec.
  all: cbv [html_loaded_verbatim contents calls_of]; cbn [In].
  all: intros v Hin; try contradiction.
  all: destruct Hin as [<- | []]; split; [reflexivity |].
  all: match goal with
       | H : _ || _ = false |- _ => exact (guard_accepts _ H)
       end.
Qed.

Lemma X9_witness :
  html_loaded_verbatim hello_body (run (Part001.post_pdf_debug hello_body) ok_engine) /\
  contents (calls_of (run (Part001.post_pdf_debug hello_body) ok_engine))
    = [Some (JStr "<p>x</p>")].
Proof.
  split; [| vm_compute; reflexivity].
  apply (X9_html_loaded_as_posted part_001 "/pdf-debug"). reflexivity.
Defined.

(** X10. A 200 of [POST /pdf], in every build, carries Content-Type
    application/pdf, the Content-Disposition made of the text of the
    file name, [String(filename)], and exactly the bytes the print step
    resolved with; a file name that has no text is never answered 200.
    The file name is document.pdf when the body has no [filename], the
    text null when it is [null], and the text JavaScript prints for the
    number when it is a number. *)
Theorem X10_success_response (b : Build) (e : Engine) (body : JsVal) :
  (forall name : string,
      filename_of body = Some name ->
      pdf_success_shape name (run (post_pdf b body) e)) /\
  (filename_of body = None -> status (response_of (run (post_pdf b body) e)) <> 200) /\
  (get_prop body "filename" = undefined -> filename_of body = Some "document.pdf") /\
  (get_prop body "filename" = Some JNull -> filename_of body = Some "null") /\
  (forall x : Number,
      get_prop body "filename" = Some (JNumber x) -> filename_of body = Some (num_text x)).
Proof.
  split; [| split; [| split; [| split]]].
  3, 4: intros H; unfold filename_of; rewrite H; reflexivity.
  3: intros x H; unfold filename_of; rewrite H; reflexivity.
  1: intros name.
  all: destruct b; exec.
  all: unfold filename_of, CONTENT_DISPOSITION, pdf_success_shape.
  all: repeat match goal with
         | H : to_string _ = _ |- _ => rewrite H
         end.
  all: intros Hname; simplify_eq.
  all: read_response.
  all: try discriminate.
  all: intros Hok; try discriminate Hok.
  all: split; [rewrite lookup_insert_ne by discriminate; apply lookup_insert_eq |].
  all: split; [apply lookup_insert_eq |].
  all: eexists _, _; split; [cbn [In]; eauto 20 | reflexivity].
Qed.

(** X11. In the [src/server.js] and [part_001] builds the session is
    closed inside [renderPdfFromHtml], before anything is answered: if
    [browser.close()] is rejected, [POST /pdf] answers 500 and sends no
    PDF byte, even when the print step had resolved. *)
Theorem X11_close_failure_costs_the_pdf (b : Build) (e : Engine) (body : JsVal) :
  b <> part_000 ->
  close_failure_fatal (run (post_pdf b body) e).
Proof.
  intros Hb. destruct b; try contradiction.
  all: exec.
  all: cbv [close_failure_fatal existsb close_rejected orb].
  all: intros Hrej; try discriminate Hrej.
  all: split; [reflexivity |].
  all: intros pdf Hin; cbn in Hin; intuition discriminate.
Qed.

Lemma X11_witness :
  close_failure_fatal (run (post_pdf server_js hello_body) close_fails_engine) /\
  ops_of (run (post_pdf server_js hello_body) close_fails_engine)
    = [Status 500; SendJson (RENDER_FAILED "browser.close: Target closed")].
Proof.
  split; [| vm_compute; reflexivity].
  apply X11_close_failure_costs_the_pdf. discriminate.
Defined.

(** X12. Where the session is closed in the handler's own [finally],
    after the answer is written ([POST /pdf] of [part_000],
    [POST /pdf-debug] of the two other builds), the response does not
    depend on what [browser.close()] does: resolved or rejected, the
    client gets the same answer. *)
Theorem X12_late_close_cannot_change_the_answer (e : Engine) (body : JsVal)
    (o1 o2 : Outcome) :
  response_of (run (Part000.post_pdf body) (with_close_outcome o1 e))
    = response_of (run (Part000.post_pdf body) (with_close_outcome o2 e)) /\
  response_of (run (ServerJs.post_pdf_debug body) (with_close_outcome o1 e))
    = response_of (run (ServerJs.post_pdf_debug body) (with_close_outcome o2 e)) /\
  response_of (run (Part001.post_pdf_debug body) (with_close_outcome o1 e))
    = response_of (run (Part001.post_pdf_debug body) (with_close_outcome o2 e)).
Proof.
  split; [| split].
  all: exec_close.
  all: simplify_eq; reflexivity.
Qed.

(** X13. [POST /pdf-debug] with a valid [html], in the two builds that
    have the route: the answer is either 200 with the base64 text of the
    bytes the screenshot resolved with and the length of [html], or 500
    with the error text "pdf-debug failed" and the message of the
    rejection the handler caught; and a screenshot is only ever taken of
    the full page, as PNG. *)
Theorem X13_debug_screenshot_or_error (b : Build) (h : JsVal -> M unit)
    (e : Engine) (body : JsVal) :
  routes b POST "/pdf-debug" = Some h ->
  valid_html body ->
  debug_png_or_error (get_prop body "html") (run (h body) e) /\
  (forall shot : bool * string,
      In shot (screenshots (calls_of (run (h body) e))) -> shot = (true, "png")).
Proof.
  intros Hr (s & Hs & Hne).
  pose proof (guard_valid _ _ Hs Hne) as Hguard.
  destruct b; cbn in Hr; inversion Hr; subst h; clear Hr.
  all: unfold_handlers; autorewrite with js_norm; rewrite Hguard; exec.
  all: split.
  all: cbv [debug_png_or_error screenshots calls_of reported_failure ops_of].
  all: try (intros shot Hin; cbn [In] in Hin; intuition congruence).
  all: first
    [ left; eexists; split; [cbn [In]; eauto 20 | reflexivity]
    | right; eexists; split; reflexivity ].
Qed.

Lemma X13_witness :
  debug_png_or_error (Some (JStr "<p>x</p>"))
    (run (ServerJs.post_pdf_debug hello_body) ok_engine) /\
  ops_of (run (ServerJs.post_pdf_debug hello_body) ok_engine)
    = [Status 200;
       SendJson (json_object [("screenshot_base64", Some (JStr "TWFu"));
                              ("html_len", Some (JNum 8))])].
Proof.
  split; [| vm_compute; reflexivity].
  refine (proj1 (X13_debug_screenshot_or_error server_js ServerJs.post_pdf_debug
                   ok_engine hello_body eq_refl _)).
  exists "<p>x</p>". split; [reflexivity | discriminate].
Defined.

(** X14. [GET /selftest], in the two builds that have the route and
    against every engine: the answer is either 200 with Content-Type
    application/pdf, the file name selftest.pdf and the bytes the print
    step resolved with, or 500 with the error text "Selftest failed" and
    the message of the rejection caught; the render uses no [baseURL],
    the Letter format and exactly the default margin. *)
Theorem X14_selftest_pdf_or_error (b : Build) (h : JsVal -> M unit)
    (e : Engine) (body : JsVal) :
  routes b GET "/selftest" = Some h ->
  selftest_pdf_or_error (run (h body) e) /\
  selftest_defaults (run (h body) e).
Proof.
  intros Hr.
  destruct b; cbn in Hr; inversion Hr; subst h; clear Hr.
  all: exec.
  all: split.
  all: cbv [selftest_pdf_or_error selftest_defaults pdf_options new_pages calls_of
            reported_failure ops_of CONTENT_DISPOSITION].
  all: try (first
    [ left; eexists _, _; split; [cbn [In]; eauto 20 | reflexivity]
    | right; eexists; split; reflexivity ]).
  all: split; [intros opts Hin | intros u Hin]; cbn [In] in Hin; try contradiction.
  all: destruct Hin as [<- | []]; try reflexivity.
  all: cbn [opt_format opt_margin]; split; [reflexivity |].
  all: unfold object_spread; cbn [dflt spread_entries]; apply (left_id_L ∅ (∪)).
Qed.

Lemma X14_witness :
  selftest_pdf_or_error (run Part001.get_selftest print_fails_engine) /\
  selftest_defaults (run Part001.get_selftest print_fails_engine) /\
  ops_of (run Part001.get_selftest print_fails_engine)
    = [Status 500; SendJson (SELFTEST_FAILED "page.pdf: Unknown paper format")].
Proof.
  destruct (X14_selftest_pdf_or_error part_001 (fun _ => Part001.get_selftest)
              print_fails_engine undefined eq_refl) as [Hshape Hdefaults].
  split; [exact Hshape |]. split; [exact Hdefaults |]. vm_compute. reflexivity.
Defined.

(** X15. [renderPdfFromHtml], in the two builds that define it, against
    every engine and for every argument object: it never writes to the
    response; when it returns a buffer, that buffer is what the print
    step resolved with and no engine call other than the font wait was
    rejected, the close included; when it throws, it throws the
    rejection of an engine call of its log, never that of the font
    wait. *)
Theorem X15_render_returns_print_bytes_or_throws (e : Engine) (a : RenderArgs) :
  render_contract (completion (ServerJs.renderPdfFromHtml a) e)
                  (run (ServerJs.renderPdfFromHtml a) e) /\
  render_contract (completion (Part001.renderPdfFromHtml a) e)
                  (run (Part001.renderPdfFromHtml a) e).
Proof.
  split.
  all: exec.
  all: simplify_eq.
  all: cbv [render_contract ops_of existsb call_rejected orb].
  all: split; [reflexivity |].
  all: first
    [ split; [reflexivity | eexists; cbn [In]; eauto 20]
    | eexists; split; [cbn [In]; eauto 20 | reflexivity] ].
Qed.

(** X16. On [POST /pdf], in every build, the Content-Disposition header
    is set exactly on the responses of status 200; and when the value
    made of the file name cannot be set, because it is not legal header
    content or because the file name has no text, the answer is never
    200, whatever the engine does. *)
Theorem X16_disposition_only_on_success (b : Build) (e : Engine) (body : JsVal) :
  disposition_iff_success (run (post_pdf b body) e) /\
  (disposition_ok body = false ->
   status (response_of (run (post_pdf b body) e)) <> 200).
Proof.
  destruct b; exec.
  all: cbv [disposition_ok disposition_of filename_of option_map CONTENT_DISPOSITION].
  all: repeat match goal with
         | H : to_string _ = _ |- _ => rewrite H
         | H : header_value_ok _ = _ |- _ => rewrite H
         end.
  all: cbv [disposition_iff_success]; read_response.
  all: split; [| intros Hbad; try discriminate Hbad; discriminate].
  all: split;
    [ intros [x Hx]; try reflexivity; exfalso; revert Hx;
      rewrite ?lookup_insert_ne by discriminate; rewrite lookup_empty; discriminate
    | intros Hok; try discriminate Hok; eexists; apply lookup_insert_eq ].
Qed.

Lemma X16_witness :
  disposition_iff_success
    (run (post_pdf part_000 (named_body ("a" +:+ LF +:+ "b.pdf"))) ok_engine) /\
  status (response_of (run (post_pdf part_000 (named_body ("a" +:+ LF +:+ "b.pdf")))
                           ok_engine)) <> 200.
Proof.
  destruct (X16_disposition_only_on_success part_000 ok_engine
              (named_body ("a" +:+ LF +:+ "b.pdf"))) as [Hiff Hnever].
  split; [exact Hiff |]. apply Hnever. vm_compute. reflexivity.
Defined.

(** X17. The margin of [POST /pdf] is neither validated nor filtered, in
    any build: a [margin] that is absent, null, a number or a boolean
    leaves exactly the four defaults, and every property of a margin
    object, an edge or not, reaches the print step with its value. *)
Theorem X17_margin_not_filtered (b : Build) (e : Engine) (body : JsVal)
    (opts : PdfOptions) :
  In opts (pdf_options (calls_of (run (post_pdf b body) e))) ->
  (spreads_nothing (get_prop body "margin") = true -> opt_margin opts = default_margin) /\
  (forall (fields : gmap string Json) (k : string) (v : Json),
      get_prop body "margin" = Some (JObj fields) ->
      fields !! k = Some v ->
      opt_margin opts !! k = Some v).
Proof.
  intros Hin. apply print_margin in Hin. rewrite Hin. split.
  - apply spread_nothing_defaults.
  - intros fields k v Hm Hk. rewrite Hm, margin_lookup. cbn [spread_entries].
    rewrite Hk. reflexivity.
Qed.

Lemma X17_witness :
  let body := Some (JObj (<["html" := JStr "<p>x</p>"]>
                          {[ "margin" := JObj {[ "gutter" := JNum 3 ]} ]})) in
  let opts := {| opt_format := Some (JStr "Letter");
                 opt_printBackground := true;
                 opt_preferCSSPageSize := true;
                 opt_margin := object_spread default_margin
                                 (Some (JObj {[ "gutter" := JNum 3 ]}));
                 opt_displayHeaderFooter := false |} in
  pdf_options (calls_of (run (post_pdf part_001 body) ok_engine)) = [opts] /\
  opt_margin opts !! "gutter" = Some (JNum 3).
Proof.
  intros body opts.
  assert (Hin : In opts (pdf_options (calls_of (run (post_pdf part_001 body) ok_engine)))).
  { left. vm_compute. reflexivity. }
  split; [vm_compute; reflexivity |].
  refine (proj2 (X17_margin_not_filtered part_001 ok_engine body opts Hin)
            {[ "gutter" := JNum 3 ]} "gutter" (JNum 3) _ _).
  - reflexivity.
  - reflexivity.
Defined.

(** X18. The listening port is 3000 exactly when the environment has no
    [PORT] or an empty one; any other value, the text 0 included, is
    used as it is, as a string. *)
Theorem X18_port_default (env_port : option string) :
  (PORT env_port = Some (JNum 3000) <-> env_port = None \/ env_port = Some "") /\
  (forall s : string, env_port = Some s -> s <> "" -> PORT env_port = Some (JStr s)).
Proof.
  unfold PORT, js_or. destruct env_port as [s |]; cbn.
  - destruct (String.eqb_spec s "") as [-> | Hs]; cbn.
    + split; [split; auto | intros s' [= <-] Hne; contradiction].
    + split.
      * split; [discriminate | intros [H | [= H]]; [discriminate | contradiction]].
      * intros s' [= <-] _. reflexivity.
  - split; [split; auto | intros s' H; discriminate].
Qed.
